(** * Field resolution and opportunity ranking of the grant application bot

    A shallow embedding of the two pieces of the repository that decide
    something: the label-to-profile resolver of
    [form_filler/__init__.py] (class [IntelligentFormFiller]) and the
    relevance ranker of [grant.py]
    ([GrantApplicationBot.filter_opportunities_by_relevance]).

    Python [str] values are modelled as [string]; case folding and the
    character classes of [re] are the ASCII ones, so the model speaks about
    ASCII text.  Python [int] is [Z], [len] gives a [nat]. *)

From Stdlib Require Import ZArith Ascii String List Bool Lia.
From Stdlib Require Import Sorting.Sorted Sorting.Permutation.
From stdpp Require Import base option list gmap strings.
Import ListNotations.

Local Open Scope string_scope.
Local Open Scope list_scope.

(** ** Python built-ins used by the two modules *)

Module Py.

(** [c.lower()] on one ASCII character: [A]..[Z] move to [a]..[z]. *)
Definition lower_ascii (c : ascii) : ascii :=
  let n := N_of_ascii c in
  if ((65 <=? n) && (n <=? 90))%N then ascii_of_N (n + 32) else c.

(** [s.lower()] *)
Fixpoint lower (s : string) : string :=
  match s with
  | EmptyString => EmptyString
  | String c s' => String (lower_ascii c) (lower s')
  end.

(** [sub in s] on strings: [sub] occurs in [s] as a contiguous substring.
    The empty string occurs in every string. *)
Fixpoint str_in (sub s : string) : bool :=
  String.prefix sub s ||
  match s with
  | EmptyString => false
  | String _ s' => str_in sub s'
  end.

(** [str(v)] for a value that already is a [str]. *)
Definition str (v : string) : string := v.

(** [sep.join(l)] *)
Definition join (sep : string) (l : list string) : string :=
  String.concat sep l.

(** [d.get(k)] / [d[k]] / [k in d] on a dict kept in insertion order. *)
Fixpoint dict_get {V : Type} (d : list (string * V)) (k : string) : option V :=
  match d with
  | [] => None
  | (k', v) :: rest => if String.eqb k' k then Some v else dict_get rest k
  end.

(** [any(word in s for word in words)] *)
Definition any_in (words : list string) (s : string) : bool :=
  existsb (fun word => str_in word s) words.

(** [x in l] for a list of strings. *)
Definition str_elem (x : string) (l : list string) : bool :=
  existsb (String.eqb x) l.

(** [enumerate(l)] *)
Definition enumerate {A : Type} (l : list A) : list (nat * A) :=
  combine (seq 0 (List.length l)) l.

End Py.

(** ** [config/master_document.py]: the applicant profile

    The pydantic models; every field the form filler reads is a [str]
    (or a [List[str]]).  The sections the filler never reads
    ([traction], [problem_solution], [roadmap_6_months]) are left out. *)

Record CompanyInfo := {
  company_name : string;
  company_description : string;
  company_industry : string;
  company_stage : string;
  company_location : string;
  company_website : string;
  company_demo_url : string
}.

Record FounderInfo := {
  founder_name : string;
  founder_title : string;
  founder_email : string;
  founder_phone : string;
  founder_background : string;
  founder_linkedin : option string
}.

Record FinancialInfo := {
  current_revenue : string;
  funding_amount_requested : string;
  funding_type : string;
  use_of_funds : list string
}.

Record MasterDocument := {
  company : CompanyInfo;
  founder : FounderInfo;
  financial : FinancialInfo;
  executive_summary : string
}.

(** [MasterDocument()]: the defaults of the models. *)
Definition default_company : CompanyInfo := {|
  company_name := "KamandaLabs";
  company_description := "Uganda's first automated environmental-compliance platform";
  company_industry := "Environmental Technology / GreenTech";
  company_stage := "Early Stage / MVP";
  company_location := "Uganda";
  company_website := "https://kamandalabs.me";
  company_demo_url := "https://nema.kamandalabs.me"
|}.

Definition default_founder : FounderInfo := {|
  founder_name := "Kamanda Collins";
  founder_title := "Founder";
  founder_email := "kamandacollins004@gmail.com";
  founder_phone := "+256 771 594 776";
  founder_background := "Final-year Petroleum and Mineral Geoscience student at Nkumba University";
  founder_linkedin := None
|}.

Definition default_financial : FinancialInfo := {|
  current_revenue := "No revenue currently";
  funding_amount_requested := "$7,500";
  funding_type := "Non-dilutive";
  use_of_funds := [
    "Complete cloud and deployment infrastructure";
    "Pay for NEMA legal review and formal environmental validation";
    "Host user onboarding workshops";
    "Cover basic tech operations (internet, computer maintenance)";
    "Convert pilot users into paid subscriptions by Q4 2025" ]
|}.

Definition default_master_document : MasterDocument := {|
  company := default_company;
  founder := default_founder;
  financial := default_financial;
  executive_summary := "KamandaLabs is Uganda's first automated environmental-compliance platform, built by Kamanda Collins — a final-year Petroleum and Mineral Geoscience student at Nkumba University — to slash ESIA preparation time from 4 weeks to 3 days. While we currently have no revenue, we have strong traction with 1 highly engaged consulting lead, multiple outreach responses, and tools already deployed. We are seeking $7,500 in non-dilutive funding."
|}.

(** ** The browser collaborator

    The form filler talks to Selenium.  What the resolver needs from it is
    little: an element is or is not a [<select>], it carries the texts of
    its options, and a call on it either goes through or raises.  A
    computation returns a value or raises, and records the calls that
    went through on the element. *)

Module Driver.

Inductive exn :=
| UnexpectedTagNameException
| ElementNotInteractableException.

Inductive action :=
| Clear
| SendKeys (data : string)
| SelectByIndex (i : nat).

Inductive result (A : Type) :=
| Ok (a : A)
| Raise (e : exn).
Arguments Ok {A} a.
Arguments Raise {A} e.

(** Outcome and the calls made on the element, oldest first. *)
Definition Drv (A : Type) : Type := result A * list action.

Definition ret {A} (a : A) : Drv A := (Ok a, []).
Definition raise {A} (e : exn) : Drv A := (Raise e, []).
Definition perform (a : action) : Drv unit := (Ok tt, [a]).

Definition bind {A B} (m : Drv A) (k : A -> Drv B) : Drv B :=
  match m with
  | (Ok a, w) => let (r, w') := k a in (r, w ++ w')
  | (Raise e, w) => (Raise e, w)
  end.

(** [try: m except Exception as e: h e] *)
Definition try_except {A} (m : Drv A) (h : exn -> Drv A) : Drv A :=
  match m with
  | (Ok a, w) => (Ok a, w)
  | (Raise e, w) => let (r, w') := h e in (r, w ++ w')
  end.

#[global] Instance drv_ret : MRet Drv := @ret.
#[global] Instance drv_bind : MBind Drv := fun A B k m => bind m k.

(** The browser decides call by call whether an element takes it: an
    element may take [clear()] and refuse the [send_keys] that follows. *)
Record WebElement := {
  is_select : bool;            (* the tag is [select] *)
  option_texts : list string;  (* [[o.text for o in Select(e).options]] *)
  interactable : action -> bool  (* the calls on the element that go through *)
}.

(** [Select(element)] *)
Definition Select (element : WebElement) : Drv WebElement :=
  if is_select element then ret element else raise UnexpectedTagNameException.

(** A call that acts on the element: it goes through and is recorded, or
    it raises and leaves the element as it was. *)
Definition act (element : WebElement) (a : action) : Drv unit :=
  if interactable element a then perform a
  else raise ElementNotInteractableException.

Definition clear (element : WebElement) : Drv unit := act element Clear.
Definition send_keys (element : WebElement) (data : string) : Drv unit :=
  act element (SendKeys data).
Definition select_by_index (select : WebElement) (i : nat) : Drv unit :=
  act select (SelectByIndex i).

End Driver.

(** ** [form_filler/__init__.py] *)

Module FormFiller.
Import Py Driver.

(** [FormField]; [is_required] is informational and read by nothing below. *)
Record FormField := {
  element : WebElement;
  field_type : string;
  label : string
}.

Record IntelligentFormFiller := {
  master_doc : MasterDocument;
  field_mappings : list (string * string);
  field_patterns : list (string * list string)
}.

(** [_create_field_mappings]: the dict literal, in the order it is written. *)
Definition _create_field_mappings (master_doc : MasterDocument)
  : list (string * string) :=
  let c := company master_doc in
  let f := founder master_doc in
  let fin := financial master_doc in
  [ ("company_name", company_name c);
    ("organization_name", company_name c);
    ("business_name", company_name c);
    ("startup_name", company_name c);

    ("founder_name", founder_name f);
    ("applicant_name", founder_name f);
    ("contact_name", founder_name f);
    ("representative_name", founder_name f);

    ("email", founder_email f);
    ("contact_email", founder_email f);
    ("email_address", founder_email f);

    ("phone", founder_phone f);
    ("phone_number", founder_phone f);
    ("telephone", founder_phone f);
    ("mobile", founder_phone f);

    ("website", company_website c);
    ("company_website", company_website c);
    ("url", company_website c);

    ("description", company_description c);
    ("company_description", company_description c);
    ("business_description", company_description c);
    ("about", company_description c);
    ("summary", executive_summary master_doc);
    ("overview", executive_summary master_doc);
    ("pitch", executive_summary master_doc);

    ("funding_amount", funding_amount_requested fin);
    ("funding_request", funding_amount_requested fin);
    ("investment_amount", funding_amount_requested fin);
    ("amount_requested", funding_amount_requested fin);

    ("industry", company_industry c);
    ("sector", company_industry c);
    ("category", company_industry c);

    ("location", company_location c);
    ("country", company_location c);
    ("city", company_location c);

    ("stage", company_stage c);
    ("company_stage", company_stage c);
    ("business_stage", company_stage c);

    ("use_of_funds", join "; " (use_of_funds fin));
    ("funding_purpose", join "; " (use_of_funds fin));

    ("revenue", current_revenue fin);
    ("current_revenue", current_revenue fin);

    ("background", founder_background f);
    ("founder_background", founder_background f);
    ("experience", founder_background f) ].

(** The [field_patterns] literal of [__init__]. *)
Definition default_field_patterns : list (string * list string) :=
  [ ("company_name", ["company"; "organization"; "business"; "startup"; "entity"]);
    ("founder_name", ["name"; "founder"; "applicant"; "contact"; "representative"]);
    ("email", ["email"; "e-mail"; "contact"]);
    ("phone", ["phone"; "telephone"; "mobile"; "contact"]);
    ("website", ["website"; "url"; "web"; "site"]);
    ("description", ["description"; "about"; "summary"; "overview"; "pitch"]);
    ("funding_amount", ["amount"; "funding"; "request"; "investment"; "money"]);
    ("industry", ["industry"; "sector"; "category"; "field"]);
    ("location", ["location"; "address"; "city"; "country"; "region"]);
    ("stage", ["stage"; "phase"; "level"; "status"]) ].

(** [IntelligentFormFiller(master_document)] *)
Definition init (master_document : MasterDocument) : IntelligentFormFiller := {|
  master_doc := master_document;
  field_mappings := _create_field_mappings master_document;
  field_patterns := default_field_patterns
|}.

Section Resolver.
Variable self : IntelligentFormFiller.

(** The first loop of [_determine_field_data]:
    [for key, value in self.field_mappings.items():
       if key in label_lower: return str(value)] *)
Fixpoint direct_mapping_lookup (items : list (string * string))
    (label_lower : string) : option string :=
  match items with
  | [] => None
  | (key, value) :: rest =>
      if str_in key label_lower then Some (str value)
      else direct_mapping_lookup rest label_lower
  end.

(** [f"{pattern_type}_name" if pattern_type in ['company', 'founder']
     else pattern_type] *)
Definition mapping_key_of (pattern_type : string) : string :=
  if str_elem pattern_type ["company"; "founder"]
  then pattern_type ++ "_name" else pattern_type.

(** The inner loop of the pattern matching: a pattern that occurs in the
    label returns only when its mapping key is in [field_mappings]. *)
Fixpoint scan_patterns (label_lower pattern_type : string)
    (patterns : list string) : option string :=
  match patterns with
  | [] => None
  | pattern :: rest =>
      if str_in pattern label_lower then
        match dict_get (field_mappings self) (mapping_key_of pattern_type) with
        | Some value => Some (str value)
        | None => scan_patterns label_lower pattern_type rest
        end
      else scan_patterns label_lower pattern_type rest
  end.

(** The outer loop: [for pattern_type, patterns in self.field_patterns.items()] *)
Fixpoint pattern_matching (items : list (string * list string))
    (label_lower : string) : option string :=
  match items with
  | [] => None
  | (pattern_type, patterns) :: rest =>
      match scan_patterns label_lower pattern_type patterns with
      | Some data => Some data
      | None => pattern_matching rest label_lower
      end
  end.

(** The three "special cases" that close the function. *)
Definition special_cases (field_type label_lower : string) : option string :=
  if String.eqb field_type "email" || str_in "email" label_lower
  then Some (founder_email (founder (master_doc self)))
  else if String.eqb field_type "tel"
          || any_in ["phone"; "tel"; "mobile"] label_lower
  then Some (founder_phone (founder (master_doc self)))
  else if String.eqb field_type "url"
          || any_in ["website"; "url"; "web"] label_lower
  then Some (company_website (company (master_doc self)))
  else None.

(** The body of [_determine_field_data] once [label_lower] is bound. *)
Definition determine_from (label_lower field_type : string) : option string :=
  match direct_mapping_lookup (field_mappings self) label_lower with
  | Some data => Some data
  | None =>
      match pattern_matching (field_patterns self) label_lower with
      | Some data => Some data
      | None => special_cases field_type label_lower
      end
  end.

Definition _determine_field_data (field : FormField) : option string :=
  let label_lower := lower (label field) in
  determine_from label_lower (field_type field).

Definition _fill_input_field (element : WebElement) (data : string) : Drv unit :=
  clear element ;; send_keys element data.

Definition _fill_textarea_field (element : WebElement) (data : string) : Drv unit :=
  clear element ;; send_keys element data.

(** The loop of [_fill_select_field] over [enumerate(options)]. *)
Fixpoint select_first (select : WebElement) (data_lower : string)
    (options : list (nat * string)) : Drv bool :=
  match options with
  | [] => ret false
  | (i, option_text) :: rest =>
      if str_in data_lower option_text || str_in option_text data_lower
      then select_by_index select i ;; ret true
      else select_first select data_lower rest
  end.

Definition _fill_select_field (element : WebElement) (data : string) : Drv bool :=
  try_except
    (select ← Select element;
     let options := map lower (option_texts select) in
     let data_lower := lower data in
     select_first select data_lower (enumerate options))
    (fun _ => ret false).

(** [_fill_select_field] with [str.lower] left open: [fold] stands for it.
    What is proved of this function for every [fold] holds of the method
    whatever [str.lower] does to a character; [_fill_select_field] is the
    function at [lower]. *)
Definition _fill_select_field_with (fold : string -> string)
    (element : WebElement) (data : string) : Drv bool :=
  try_except
    (select ← Select element;
     let options := map fold (option_texts select) in
     let data_lower := fold data in
     select_first select data_lower (enumerate options))
    (fun _ => ret false).

(** [if not field_data: return False] leaves on [None] and on the empty
    string alike. *)
Definition _fill_field (field : FormField) : Drv bool :=
  try_except
    (match _determine_field_data field with
     | None | Some EmptyString => ret false
     | Some field_data =>
         if str_elem (field_type field) ["text"; "email"; "tel"; "url"; "number"]
         then _fill_input_field (element field) field_data ;; ret true
         else if String.eqb (field_type field) "textarea"
         then _fill_textarea_field (element field) field_data ;; ret true
         else if String.eqb (field_type field) "select"
         then _fill_select_field (element field) field_data
         else ret false
     end)
    (fun _ => ret false).

End Resolver.

End FormFiller.

(** ** [grant.py]: the relevance ranker *)

Module Grant.
Import Py.

(** An opportunity dict.  [focus] is [None] when the key is absent
    ([opp.get("focus", [])] then gives the empty list); [relevance_score] is
    [None] until the ranker writes it.  The ranker mutates the dicts it is
    given and returns the same objects in a new list; a score depends on
    nothing but the dict's own [focus], so a dict that occurs twice gets
    the same value twice and the value-level model loses nothing. *)
Record Opportunity := {
  name : string;
  url : string;
  apply_link_selector : string;
  deadline : string;
  type_ : string;
  focus : option (list string);
  relevance_score : option Z
}.

(** [opp["relevance_score"] = score] *)
Definition set_relevance_score (opp : Opportunity) (score : Z) : Opportunity := {|
  name := name opp;
  url := url opp;
  apply_link_selector := apply_link_selector opp;
  deadline := deadline opp;
  type_ := type_ opp;
  focus := focus opp;
  relevance_score := Some score
|}.

(** The literal [set([...])] bound to [keywords]. *)
Definition keyword_list : list string :=
  [ "climate"; "mining"; "compliance"; "govtech"; "africa";
    "energy"; "environment"; "regtech"; "saas" ].

Definition keywords : gset string := list_to_set keyword_list.

Section Ranker.
(** The keyword set is a local constant of the method; the loop body is
    written over any set [K] so that it can be read at other sets too. *)
Variable K : gset string.

(** [{f.lower() for f in opp.get("focus", [])}] *)
Definition focus_set (opp : Opportunity) : gset string :=
  list_to_set (map lower (default [] (focus opp))).

(** [len(keywords & focus_set)] *)
Definition overlap (opp : Opportunity) : nat :=
  size (K ∩ focus_set opp).

(** [min(10, 2 + overlap * 2)] *)
Definition score (opp : Opportunity) : Z :=
  Z.min 10 (2 + Z.of_nat (overlap opp) * 2).

(** One turn of the loop: write the score, append the dict. *)
Definition enrich (opp : Opportunity) : Opportunity :=
  set_relevance_score opp (score opp).

End Ranker.

(** [x["relevance_score"]] as the sort key; every dict that reaches
    [sorted] has the key, the loop wrote it. *)
Definition sort_key (x : Opportunity) : Z := default 0%Z (relevance_score x).

(** [sorted(l, key=key, reverse=True)].  Python's sort is stable also under
    [reverse=True]: the result is in descending key order and items with
    equal keys stay in input order.  The built-in is modelled by the stable
    insertion sort: an item moves past the items with a strictly larger
    key and stops in front of the first other one. *)
Fixpoint insert_reverse {A : Type} (key : A -> Z) (x : A) (l : list A) : list A :=
  match l with
  | [] => [x]
  | y :: ys => if (key x <? key y)%Z then y :: insert_reverse key x ys
               else x :: y :: ys
  end.

Fixpoint sorted_reverse {A : Type} (key : A -> Z) (l : list A) : list A :=
  match l with
  | [] => []
  | x :: xs => insert_reverse key x (sorted_reverse key xs)
  end.

Definition filter_opportunities_by_relevance (opps : list Opportunity)
  : list Opportunity :=
  let enriched := map (enrich keywords) opps in
  sorted_reverse sort_key enriched.

(** Character classes of [re] on ASCII text. *)
Definition is_word (c : ascii) : bool :=
  let n := N_of_ascii c in
  (((48 <=? n) && (n <=? 57)) || ((65 <=? n) && (n <=? 90))
   || ((97 <=? n) && (n <=? 122)) || (n =? 95))%N.

Definition is_space (c : ascii) : bool :=
  let n := N_of_ascii c in
  (((9 <=? n) && (n <=? 13)) || ((28 <=? n) && (n <=? 32)))%N.

Fixpoint keep_chars (p : ascii -> bool) (s : string) : string :=
  match s with
  | EmptyString => EmptyString
  | String c s' => if p c then String c (keep_chars p s') else keep_chars p s'
  end.

(** The first statement of [fill_form_field]:
    [label_clean = re.sub(r"[^\w\s]", "", label.lower())], on ASCII labels:
    the word class and the case folding are the ASCII ones, what Python
    does with other characters is not modelled.  What follows the
    statement is a call into the fuzzywuzzy package and is not modelled
    either. *)
Definition label_clean (label : string) : string :=
  keep_chars (fun c => is_word c || is_space c) (lower label).

End Grant.

(** ** The specification's own words, for comparison with the code *)

Module Spec.
Import Py FormFiller Grant.

(** Section 4.1, "Normalization": lowercase; strip punctuation except
    word-internal hyphens/underscores; collapse whitespace. *)
Definition is_alnum (c : ascii) : bool :=
  let n := N_of_ascii c in
  (((48 <=? n) && (n <=? 57)) || ((65 <=? n) && (n <=? 90))
   || ((97 <=? n) && (n <=? 122)))%N.

Definition is_joiner (c : ascii) : bool :=
  let n := N_of_ascii c in ((n =? 45) || (n =? 95))%N.

Definition next_is_alnum (s : string) : bool :=
  match s with
  | EmptyString => false
  | String c _ => is_alnum c
  end.

(** [prev] tells whether the character before [s] is a letter or digit. *)
Fixpoint strip_punctuation (prev : bool) (s : string) : string :=
  match s with
  | EmptyString => EmptyString
  | String c s' =>
      if is_alnum c || is_space c
         || (is_joiner c && prev && next_is_alnum s')
      then String c (strip_punctuation (is_alnum c) s')
      else strip_punctuation (is_alnum c) s'
  end.

(** Runs of whitespace become one blank; [pending] is true when a run has
    been seen after some text. Leading and trailing runs vanish. *)
Fixpoint collapse_whitespace (started pending : bool) (s : string) : string :=
  match s with
  | EmptyString => EmptyString
  | String c s' =>
      if is_space c then collapse_whitespace started started s'
      else if pending then String " " (String c (collapse_whitespace true false s'))
      else String c (collapse_whitespace true false s')
  end.

Definition spec_normalize (label : string) : string :=
  collapse_whitespace false false (strip_punctuation false (lower label)).

(** Section 4.1, step 1: the synonym keys that occur in the label, and the
    tie-break the specification asks for. *)
Definition matching_entries (self : IntelligentFormFiller) (label_lower : string)
  : list (string * string) :=
  List.filter (fun kv => str_in (fst kv) label_lower) (field_mappings self).

Definition is_longest_match (self : IntelligentFormFiller) (label_lower : string)
    (kv : string * string) : Prop :=
  In kv (matching_entries self label_lower) /\
  Forall (fun kv' => String.length (fst kv') <= String.length (fst kv))
         (matching_entries self label_lower).

(** "resolve selects the longest matching key": the value returned is the
    value of a longest matching key. *)
Definition selects_longest_key (self : IntelligentFormFiller) (field : FormField)
  : Prop :=
  forall kv, is_longest_match self (lower (label field)) kv ->
    _determine_field_data self field = Some (snd kv).

(** Section 4.1, "Normalization ... produces the normalized label used by
    every downstream matcher": the function answers as its matchers do on
    the normalized label. *)
Definition normalized_label_feeds_matchers (self : IntelligentFormFiller)
    (field : FormField) : Prop :=
  _determine_field_data self field
  = determine_from self (spec_normalize (label field)) (field_type field).

(** The test of the loop of [_fill_select_field] as a function of the two
    texts, with [fold] for [str.lower]: the folded value occurs in the
    folded option text or the other way round.  Case is all the code
    folds; this is not the acceptance of Section 4.1, which
    [accepts_normalized] below states. *)
Definition accepts_with (fold : string -> string) (data option_text : string)
  : bool :=
  str_in (fold data) (fold option_text)
  || str_in (fold option_text) (fold data).

(** The position of the first accepting option, in list order. *)
Fixpoint first_accepting_with (fold : string -> string) (data : string)
    (options : list string) : option nat :=
  match options with
  | [] => None
  | option_text :: rest =>
      if accepts_with fold data option_text then Some 0
      else option_map S (first_accepting_with fold data rest)
  end.

(** Section 4.1, "Option matcher": "an option is accepted if [v]'s
    normalized text is a substring of the option's normalized text or vice
    versa". *)
Definition accepts_normalized (data option_text : string) : bool :=
  str_in (spec_normalize data) (spec_normalize option_text)
  || str_in (spec_normalize option_text) (spec_normalize data).

(** "The first accepting option in list order is selected", with that
    acceptance: when some option is accepted, the matcher selects the
    first accepted one. *)
Definition selects_first_normalized (element : Driver.WebElement)
    (data : string) : Prop :=
  (exists o, In o (Driver.option_texts element)
             /\ accepts_normalized data o = true) ->
  exists i o,
    Driver.option_texts element !! i = Some o
    /\ accepts_normalized data o = true
    /\ (forall j o', j < i -> Driver.option_texts element !! j = Some o' ->
           accepts_normalized data o' = false)
    /\ _fill_select_field element data
       = (Driver.Ok true, [Driver.SelectByIndex i]).

(** Section 4.2: "overlap" as a count, the number of keywords that occur
    among the lowercased tags. *)
Definition keyword_hits (keyword_list : list string) (opp : Opportunity) : nat :=
  List.length
    (List.filter (fun k => str_elem k (map lower (default [] (focus opp))))
       keyword_list).

(** Section 4.2: descending by score. *)
Definition descending (l : list Opportunity) : Prop :=
  StronglySorted (fun a b => (sort_key b <= sort_key a)%Z) l.

(** The records of [l] whose score is [s], in the order of [l]. *)
Definition with_score (s : Z) (l : list Opportunity) : list Opportunity :=
  List.filter (fun o => (sort_key o =? s)%Z) l.

End Spec.

(** ** Concrete inputs used in the examples *)

Module Fixtures.
Import Py Driver FormFiller Grant.

Definition text_input : WebElement :=
  {| is_select := false; option_texts := []; interactable := fun _ => true |}.

Definition stage_select : WebElement :=
  {| is_select := true;
     option_texts := ["Early Stage"; "Growth Stage"];
     interactable := fun _ => true |}.

Definition mvp_select : WebElement :=
  {| is_select := true;
     option_texts := ["Early Stage MVP"; "Growth Stage"];
     interactable := fun _ => true |}.

(** An input that takes [clear()] and refuses what is typed after it. *)
Definition read_only_input : WebElement :=
  {| is_select := false; option_texts := [];
     interactable := fun a => match a with Clear => true | _ => false end |}.

Definition empty_select : WebElement :=
  {| is_select := true; option_texts := []; interactable := fun _ => true |}.

Definition field_of (label kind : string) : FormField :=
  {| element := text_input; field_type := kind; label := label |}.

Definition default_filler : IntelligentFormFiller := init default_master_document.

(** A filler whose table holds both [business] and [business_name]. *)
Definition two_key_filler (a b : string) : IntelligentFormFiller :=
  {| master_doc := default_master_document;
     field_mappings := [("business_name", b); ("business", a)];
     field_patterns := default_field_patterns |}.

Definition with_patterns (self : IntelligentFormFiller)
    (patterns : list (string * list string)) : IntelligentFormFiller :=
  {| master_doc := master_doc self;
     field_mappings := field_mappings self;
     field_patterns := patterns |}.

Definition with_type (field : FormField) (kind : string) : FormField :=
  {| element := element field; field_type := kind; label := label field |}.

Definition with_label (field : FormField) (l : string) : FormField :=
  {| element := element field; field_type := field_type field; label := l |}.

Definition opportunity (n : string) (tags : option (list string)) : Opportunity :=
  {| name := n; url := ""; apply_link_selector := ""; deadline := "";
     type_ := ""; focus := tags; relevance_score := None |}.

End Fixtures.

(** ** More of Python's [str]

    [strip], [replace] for one character and [title], on ASCII text. *)

Module PyStr.
Import Py.

Definition is_upper (c : ascii) : bool :=
  let n := N_of_ascii c in ((65 <=? n) && (n <=? 90))%N.

Definition is_lower (c : ascii) : bool :=
  let n := N_of_ascii c in ((97 <=? n) && (n <=? 122))%N.

(** A cased character: one that has an upper and a lower form. *)
Definition is_cased (c : ascii) : bool := is_upper c || is_lower c.

Definition upper_ascii (c : ascii) : ascii :=
  if is_lower c then ascii_of_N (N_of_ascii c - 32) else c.

(** [s.lstrip()] *)
Fixpoint lstrip (s : string) : string :=
  match s with
  | EmptyString => EmptyString
  | String c s' => if Grant.is_space c then lstrip s' else s
  end.

(** [s.rstrip()] *)
Fixpoint rstrip (s : string) : string :=
  match s with
  | EmptyString => EmptyString
  | String c s' =>
      match rstrip s' with
      | EmptyString => if Grant.is_space c then EmptyString
                       else String c EmptyString
      | r => String c r
      end
  end.

(** [s.strip()] *)
Definition strip (s : string) : string := rstrip (lstrip s).

(** [s.replace(old, new)] for one-character [old] and [new]. *)
Fixpoint replace_char (old new : ascii) (s : string) : string :=
  match s with
  | EmptyString => EmptyString
  | String c s' =>
      String (if Ascii.eqb c old then new else c) (replace_char old new s')
  end.

(** [s.title()]: a cased character is made upper case when the character
    before it is not cased, lower case when it is. *)
Fixpoint title_from (previous_is_cased : bool) (s : string) : string :=
  match s with
  | EmptyString => EmptyString
  | String c s' =>
      String (if previous_is_cased then lower_ascii c else upper_ascii c)
             (title_from (is_cased c) s')
  end.

Definition title (s : string) : string := title_from false s.

(** Truth value of an [Optional[str]]: [None] and [""] are false. *)
Definition truthy (v : option string) : bool :=
  match v with
  | None | Some EmptyString => false
  | Some _ => true
  end.

(** A character of the ASCII range, where the model's [lower] and
    character classes are Python's. *)
Definition is_ascii (c : ascii) : bool := (N_of_ascii c <? 128)%N.

(** Every character of [s] passes [p]. *)
Fixpoint all_chars (p : ascii -> bool) (s : string) : bool :=
  match s with
  | EmptyString => true
  | String c s' => p c && all_chars p s'
  end.

(** [l[:stop]] *)
Definition slice_to {A : Type} (l : list A) (stop : Z) : list A :=
  if (0 <=? stop)%Z then firstn (Z.to_nat stop) l
  else firstn (Z.to_nat (Z.of_nat (List.length l) + stop)) l.

(** [l[start:]] for a negative [start], as in [l[-1000:]]. *)
Definition slice_last {A : Type} (l : list A) (n : nat) : list A :=
  skipn (List.length l - n) l.

End PyStr.

(** ** [scraper/__init__.py]: the keyword filter *)

Module Scraper.
Import Py PyStr.

(** [Opportunity]; [to_dict] gives a dict with these very keys. *)
Record Opportunity := {
  title : string;
  url : string;
  description : string;
  deadline : string;
  funding_amount : string;
  eligibility : string;
  source : string;
  discovered_at : string
}.

(** [OpportunityScraper._filter_opportunities], on [self.opportunities]. *)
Definition _filter_opportunities (opportunities : list Opportunity)
    (keywords : list string) : list Opportunity :=
  match keywords with
  | [] => opportunities
  | _ =>
      let keywords_lower := map lower keywords in
      List.filter
        (fun opp =>
           let text_to_search :=
             lower (title opp ++ " " ++ description opp) in
           any_in keywords_lower text_to_search
           || str_elem (source opp) ["Y Combinator"; "Techstars"])
        opportunities
  end.

(** The two tests of the loop body. *)
Definition mentions (keywords : list string) (opp : Opportunity) : bool :=
  any_in (map lower keywords) (lower (title opp ++ " " ++ description opp)).

Definition reputable (opp : Opportunity) : bool :=
  str_elem (source opp) ["Y Combinator"; "Techstars"].

Definition default_keywords : list string :=
  ["tech"; "startup"; "environmental"; "innovation"].

(** [OpportunityScraper.discover_opportunities] once the sources have been
    visited: [scraped] is what the visits left in [self.opportunities]. *)
Definition discover_from (scraped : list Opportunity)
    (keywords : option (list string)) (max_opportunities : Z)
  : list Opportunity :=
  let keywords := default default_keywords keywords in
  let filtered_opportunities := _filter_opportunities scraped keywords in
  slice_to filtered_opportunities max_opportunities.

(** The module-level [discover_opportunities]: [scraped] is [None] when the
    browser could not be set up, and the exception ends in [[]]. *)
Definition discover_opportunities (scraped : option (list Opportunity))
    (keywords : option (list string)) (max_results : Z) : list Opportunity :=
  match scraped with
  | Some found => discover_from found keywords max_results
  | None => []
  end.

End Scraper.

(** ** The rest of [form_filler/__init__.py]: labels, fields, forms *)

Module FormPage.
Import Py PyStr Driver FormFiller.

(** An element of the page with the attributes the filler asks for.
    [label_for] is the text of the [<label for=id>] the page holds for the
    element, [None] when there is none and [find_element] raises. *)
Record DomElement := {
  handle : WebElement;
  attr_type : option string;
  attr_id : option string;
  label_for : option string;
  attr_placeholder : option string;
  attr_name : option string
}.

(** [_get_field_label]: the label, else the placeholder, else the name
    attribute made readable, else a fixed text. *)
Definition _get_field_label (e : DomElement) : string :=
  match (if truthy (attr_id e) then label_for e else None) with
  | Some text => strip text
  | None =>
      if truthy (attr_placeholder e)
      then strip (default "" (attr_placeholder e))
      else if truthy (attr_name e)
      then title (replace_char "-" " "
                    (replace_char "_" " " (default "" (attr_name e))))
      else "Unknown Field"
  end.

Record Form := {
  inputs : list DomElement;     (* [find_elements(By.TAG_NAME, "input")] *)
  textareas : list DomElement;
  selects : list DomElement;
  submits : bool                (* what [_submit_form] returns *)
}.

Definition input_types : list string :=
  ["text"; "email"; "tel"; "url"; "number"].

(** [input_elem.get_attribute('type') or 'text'] *)
Definition input_type_of (e : DomElement) : string :=
  if truthy (attr_type e) then default "" (attr_type e) else "text".

(** The element offers neither a label nor a placeholder. *)
Definition unlabelled (e : DomElement) : Prop :=
  (if truthy (attr_id e) then label_for e else None) = None
  /\ truthy (attr_placeholder e) = false.

Definition field_for (kind : string) (e : DomElement) : FormField :=
  {| element := handle e; field_type := kind; label := _get_field_label e |}.

(** [_extract_form_fields] *)
Definition _extract_form_fields (form : Form) : list FormField :=
  map (fun e => field_for (input_type_of e) e)
      (List.filter (fun e => str_elem (input_type_of e) input_types)
                   (inputs form))
  ++ map (field_for "textarea") (textareas form)
  ++ map (field_for "select") (selects form).

(** What the browser finds at a URL: [load_error] is the text of an
    exception raised before the fields are known (setting up, loading,
    waiting for a form, reading the fields); [forms] what
    [find_elements(By.TAG_NAME, "form")] returns. *)
Record Page := {
  load_error : option string;
  forms : list Form
}.

(** The entries of [result['errors']], one constructor per message. *)
Inductive fill_error :=
| NoFormsFound                            (* "No forms found on the page" *)
| FieldError (label : string) (e : exn)   (* "Error filling field '..': .." *)
| GeneralError (message : string).        (* "General error: .." *)

Record FillResult := {
  r_url : string;
  r_success : bool;
  r_fields_filled : nat;
  r_total_fields : nat;
  r_errors : list fill_error;
  r_submitted : bool;
  r_opportunity : option Scraper.Opportunity
}.

Section Filling.
Variable self : IntelligentFormFiller.

(** The loop of [fill_form] over the fields. *)
Fixpoint fill_fields (fields : list FormField) (fields_filled : nat)
    (errors : list fill_error) : nat * list fill_error :=
  match fields with
  | [] => (fields_filled, errors)
  | field :: rest =>
      match fst (_fill_field self field) with
      | Ok true => fill_fields rest (S fields_filled) errors
      | Ok false => fill_fields rest fields_filled errors
      | Raise e =>
          fill_fields rest fields_filled
            (errors ++ [FieldError (label field) e])
      end
  end.

(** The field was filled: [_fill_field] answered [True]. *)
Definition filled (field : FormField) : bool :=
  match fst (_fill_field self field) with
  | Ok true => true
  | _ => false
  end.

(** [fill_form] *)
Definition fill_form (page : Page) (form_url : string) (submit : bool)
  : FillResult :=
  let result errors :=
    {| r_url := form_url; r_success := false; r_fields_filled := 0;
       r_total_fields := 0; r_errors := errors; r_submitted := false;
       r_opportunity := None |} in
  match load_error page with
  | Some message => result [GeneralError message]
  | None =>
      match forms page with
      | [] => result [NoFormsFound]
      | form :: _ =>
          let fields := _extract_form_fields form in
          let (fields_filled, errors) := fill_fields fields 0 [] in
          let success := Nat.ltb 0 fields_filled in
          {| r_url := form_url;
             r_success := success;
             r_fields_filled := fields_filled;
             r_total_fields := List.length fields;
             r_errors := errors;
             r_submitted := if submit && success then submits form else false;
             r_opportunity := None |}
      end
  end.

End Filling.

Definition set_opportunity (result : FillResult) (opp : Scraper.Opportunity)
  : FillResult :=
  {| r_url := r_url result; r_success := r_success result;
     r_fields_filled := r_fields_filled result;
     r_total_fields := r_total_fields result;
     r_errors := r_errors result; r_submitted := r_submitted result;
     r_opportunity := Some opp |}.

(** The module-level [fill_forms]; [web] is what the browser finds at each
    URL, the filler is built from the loaded master document. *)
Fixpoint fill_forms (master_doc : MasterDocument) (web : string -> Page)
    (opportunities : list Scraper.Opportunity) (submit : bool)
  : list FillResult :=
  match opportunities with
  | [] => []
  | opportunity :: rest =>
      let url := Scraper.url opportunity in
      if String.eqb url "" then fill_forms master_doc web rest submit
      else
        set_opportunity (fill_form (init master_doc) (web url) url submit)
                        opportunity
        :: fill_forms master_doc web rest submit
  end.

End FormPage.

(** ** The rest of [grant.py]: reading the master data *)

Module GrantData.
Import Py.
Local Set Warnings "-register-all".

(** A value as [json.loads] gives it; numbers are the integers. *)
Inductive json :=
| JNull
| JBool (b : bool)
| JNum (z : Z)
| JStr (s : string)
| JList (l : list json)
| JDict (items : list (string * json)).

Inductive py_exn := AttributeError | TypeError.

Inductive py_result (A : Type) :=
| Value (a : A)
| Raises (e : py_exn).
Arguments Value {A} a.
Arguments Raises {A} e.

(** [d = d.get(key, {})] along the path; a value that is not a dict has
    no [get]. *)
Fixpoint traverse (d : json) (path : list string) : py_result json :=
  match path with
  | [] => Value d
  | key :: rest =>
      match d with
      | JDict items => traverse (default (JDict []) (dict_get items key)) rest
      | _ => Raises AttributeError
      end
  end.

(** [d != {}] *)
Definition is_empty_dict (d : json) : bool :=
  match d with
  | JDict [] => true
  | _ => false
  end.

(** The characters [re.sub(r"[^\w\s]", "", ...)] leaves in place. *)
Definition clean_char (c : ascii) : bool := Grant.is_word c || Grant.is_space c.

Definition is_dict (d : json) : bool :=
  match d with
  | JDict _ => true
  | _ => false
  end.

(** [get_value]; Python's [None] is [JNull]. *)
Definition get_value (master_data : json) (path : list string) : py_result json :=
  match traverse master_data path with
  | Value d => Value (if is_empty_dict d then JNull else d)
  | Raises e => Raises e
  end.

(** [create_field_mappings] *)
Definition create_field_mappings : list (string * list string) :=
  [ ("company_name", ["company_info"; "name"]);
    ("company_tagline", ["company_info"; "tagline"]);
    ("founder_name", ["founder"; "name"]);
    ("founder_email", ["founder"; "email"]);
    ("problem", ["problem_statement"]);
    ("solution", ["solution"]);
    ("funding_amount", ["financials"; "funding_sought"]);
    ("use_of_funds", ["financials"; "use_of_funds"]);
    ("website", ["company_info"; "website"]);
    ("location", ["company_info"; "location"]);
    ("pitch_deck", ["urls"; "pitch_deck"]);
    ("linkedin", ["founder"; "linkedin"]);
    ("phone", ["founder"; "phone"]);
    ("dob", ["founder"; "dob"]);
    ("gender", ["founder"; "gender"]);
    ("nationality", ["founder"; "nationality"]) ].

(** The record as it was before the ranker wrote on it. *)
Definition without_score (opp : Grant.Opportunity) : Grant.Opportunity :=
  {| Grant.name := Grant.name opp;
     Grant.url := Grant.url opp;
     Grant.apply_link_selector := Grant.apply_link_selector opp;
     Grant.deadline := Grant.deadline opp;
     Grant.type_ := Grant.type_ opp;
     Grant.focus := Grant.focus opp;
     Grant.relevance_score := None |}.

End GrantData.

(** ** [logs/logger.py]: the activity log and its statistics *)

Module Logs.
Import Py PyStr GrantData.

(** One entry of [activity.json]. *)
Record Activity := {
  timestamp : string;
  type : string;
  data : list (string * json)
}.

(** [GrantApplicationLogger.log_activity]: what is written back to the
    file.  [existing] is the list read from the file, [None] when there is
    no file or it cannot be read; [now] is the time stamp. *)
Definition log_activity (existing : option (list Activity)) (now : string)
    (activity_type : string) (data : list (string * json)) : list Activity :=
  let activity := {| timestamp := now; type := activity_type; data := data |} in
  let activities := default [] existing in
  slice_last (activities ++ [activity]) 1000.

(** Truth value of a JSON value in an [if]. *)
Definition truth (v : json) : bool :=
  match v with
  | JNull => false
  | JBool b => b
  | JNum z => negb (z =? 0)%Z
  | JStr s => negb (String.eqb s "")
  | JList l => match l with [] => false | _ => true end
  | JDict items => match items with [] => false | _ => true end
  end.

(** [data.get(key, default)] in a condition. *)
Definition flag (data : list (string * json)) (key : string) (default : bool)
  : bool :=
  match dict_get data key with
  | Some v => truth v
  | None => default
  end.

Record Statistics := {
  total_opportunities_discovered : Z;
  forms_filled_successfully : Z;
  forms_filled_failed : Z;
  submissions_successful : Z;
  submissions_failed : Z;
  errors_count : Z
}.

Definition no_statistics : Statistics :=
  {| total_opportunities_discovered := 0; forms_filled_successfully := 0;
     forms_filled_failed := 0; submissions_successful := 0;
     submissions_failed := 0; errors_count := 0 |}.

(** [stats[...] += data.get('count', 0)]: an integer or a boolean adds, any
    other value is a [TypeError]. *)
Definition add_count (total : Z) (data : list (string * json)) : py_result Z :=
  match dict_get data "count" with
  | None => Value total
  | Some (JNum z) => Value (total + z)%Z
  | Some (JBool b) => Value (total + (if b then 1 else 0))%Z
  | Some _ => Raises TypeError
  end.

(** The body of the loop of [get_statistics]. *)
Definition count_activity (stats : Statistics) (activity : Activity)
  : py_result Statistics :=
  let activity_type := type activity in
  let data := data activity in
  if String.eqb activity_type "opportunity_discovery" then
    match add_count (total_opportunities_discovered stats) data with
    | Value total =>
        Value {| total_opportunities_discovered := total;
                 forms_filled_successfully := forms_filled_successfully stats;
                 forms_filled_failed := forms_filled_failed stats;
                 submissions_successful := submissions_successful stats;
                 submissions_failed := submissions_failed stats;
                 errors_count := errors_count stats |}
    | Raises e => Raises e
    end
  else if String.eqb activity_type "form_filling_result" then
    if flag data "success" false
    then Value {| total_opportunities_discovered := total_opportunities_discovered stats;
                  forms_filled_successfully := forms_filled_successfully stats + 1;
                  forms_filled_failed := forms_filled_failed stats;
                  submissions_successful := submissions_successful stats;
                  submissions_failed := submissions_failed stats;
                  errors_count := errors_count stats |}
    else Value {| total_opportunities_discovered := total_opportunities_discovered stats;
                  forms_filled_successfully := forms_filled_successfully stats;
                  forms_filled_failed := forms_filled_failed stats + 1;
                  submissions_successful := submissions_successful stats;
                  submissions_failed := submissions_failed stats;
                  errors_count := errors_count stats |}
  else if String.eqb activity_type "submission_result" then
    if flag data "submitted" false && negb (flag data "dry_run" true)
    then Value {| total_opportunities_discovered := total_opportunities_discovered stats;
                  forms_filled_successfully := forms_filled_successfully stats;
                  forms_filled_failed := forms_filled_failed stats;
                  submissions_successful := submissions_successful stats + 1;
                  submissions_failed := submissions_failed stats;
                  errors_count := errors_count stats |}
    else if negb (flag data "submitted" false)
    then Value {| total_opportunities_discovered := total_opportunities_discovered stats;
                  forms_filled_successfully := forms_filled_successfully stats;
                  forms_filled_failed := forms_filled_failed stats;
                  submissions_successful := submissions_successful stats;
                  submissions_failed := submissions_failed stats + 1;
                  errors_count := errors_count stats |}
    else Value stats
  else if String.eqb activity_type "error" then
    Value {| total_opportunities_discovered := total_opportunities_discovered stats;
             forms_filled_successfully := forms_filled_successfully stats;
             forms_filled_failed := forms_filled_failed stats;
             submissions_successful := submissions_successful stats;
             submissions_failed := submissions_failed stats;
             errors_count := errors_count stats + 1 |}
  else Value stats.

Fixpoint count_activities (stats : Statistics) (activities : list Activity)
  : py_result Statistics :=
  match activities with
  | [] => Value stats
  | activity :: rest =>
      match count_activity stats activity with
      | Value stats' => count_activities stats' rest
      | Raises e => Raises e
      end
  end.

(** [get_statistics]; [None] stands for a missing or unreadable file. *)
Definition get_statistics (log : option (list Activity)) : py_result Statistics :=
  match log with
  | None => Value no_statistics
  | Some activities => count_activities no_statistics activities
  end.

(** The number of activities of one type, and of those that pass a test. *)
Definition of_type (t : string) (activities : list Activity) : list Activity :=
  List.filter (fun a => String.eqb (type a) t) activities.

(** What one activity adds to the count of its type. *)
Definition is_type (t : string) (a : Activity) : Z :=
  if String.eqb (type a) t then 1 else 0.

(** A submission that went through in a dry run (or without a [dry_run]
    entry, which reads as one). *)
Definition dry_run_pass (a : Activity) : bool :=
  flag (data a) "submitted" false && flag (data a) "dry_run" true.

End Logs.

(** ** [submitter/__init__.py]: submitting one application *)

Module Submitter.
Import Py PyStr FormPage.

(** What the browser meets while submitting: [open_error] is the text of
    an exception of [setup_driver] or [driver.get]; [buttons] the number of
    elements [_find_submission_elements] returns; [validation_errors] the
    [errors] of [_validate_before_submission], whose [valid] is false
    exactly when there is one; [click_error] the text of an exception of
    the click; [confirmation] what [_wait_for_confirmation] returns, a
    message and an id. *)
Record SubmitPage := {
  open_error : option string;
  buttons : nat;
  validation_errors : list string;
  click_error : option string;
  confirmation : option (string * option string)
}.

(** The entries of [submission_result['errors']]. *)
Inductive submit_error :=
| FormNotFilled                  (* "Form filling was not successful" *)
| NoSubmitButton                 (* "No submission button found" *)
| Validation (message : string)  (* an entry of the validation errors *)
| NoConfirmation                 (* "No confirmation received after submission" *)
| DuringSubmission (message : string).  (* "Error during submission: .." *)

Record SubmissionResult := {
  s_url : string;
  s_opportunity : option Scraper.Opportunity;
  s_submitted : bool;
  s_submission_id : option string;
  s_confirmation_message : option string;
  s_errors : list submit_error;
  s_timestamp : string;
  s_dry_run : bool
}.

Definition dry_run_message : string :=
  "DRY RUN: Would have submitted successfully".

Section Submit.
Variables (form_result : FillResult) (dry_run : bool) (now : string).

Definition outcome (submitted : bool) (id message : option string)
    (errors : list submit_error) : SubmissionResult :=
  {| s_url := r_url form_result;
     s_opportunity := r_opportunity form_result;
     s_submitted := submitted;
     s_submission_id := id;
     s_confirmation_message := message;
     s_errors := errors;
     s_timestamp := now;
     s_dry_run := dry_run |}.

(** [submit_application]: the result, and the number of clicks on the
    submit button that were tried. *)
Definition submit_application (page : SubmitPage) : SubmissionResult * nat :=
  if negb (r_success form_result)
  then (outcome false None None [FormNotFilled], 0)
  else
    match open_error page with
    | Some message => (outcome false None None [DuringSubmission message], 0)
    | None =>
        if Nat.eqb (buttons page) 0
        then (outcome false None None [NoSubmitButton], 0)
        else
          match validation_errors page with
          | _ :: _ =>
              (outcome false None None (map Validation (validation_errors page)), 0)
          | [] =>
              if dry_run
              then (outcome true None (Some dry_run_message) [], 0)
              else
                match click_error page with
                | Some message =>
                    (outcome false None None [DuringSubmission message], 1)
                | None =>
                    match confirmation page with
                    | Some (message, id) =>
                        (outcome true id (Some message) [], 1)
                    | None => (outcome false None None [NoConfirmation], 1)
                    end
                end
          end
    end.

End Submit.

(** The id characters [[A-Z0-9\-]] and the separators [[:\s]] of the
    patterns of [_extract_submission_id], under [re.IGNORECASE]. *)
Definition id_char (c : ascii) : bool :=
  let n := N_of_ascii c in
  (((48 <=? n) && (n <=? 57)) || ((65 <=? n) && (n <=? 90))
   || ((97 <=? n) && (n <=? 122)) || (n =? 45))%N.

Definition sep_char (c : ascii) : bool :=
  Ascii.eqb c ":" || Grant.is_space c.

(** The longest run of characters passing [p] at the head of [s]. *)
Fixpoint run (p : ascii -> bool) (s : string) : string :=
  match s with
  | EmptyString => EmptyString
  | String c s' => if p c then String c (run p s') else EmptyString
  end.

Fixpoint after_run (p : ascii -> bool) (s : string) : string :=
  match s with
  | EmptyString => EmptyString
  | String c s' => if p c then after_run p s' else s
  end.

(** [s] starts with [word], letter case apart; what follows it. *)
Fixpoint after_word (word s : string) : option string :=
  match word, s with
  | EmptyString, _ => Some s
  | String _ _, EmptyString => None
  | String a word', String b s' =>
      if Ascii.eqb (lower_ascii a) (lower_ascii b) then after_word word' s'
      else None
  end.

(** A match of [word[:\s]+([A-Z0-9\-]+)] at the head of [s]: the group.
    With [separated] off the pattern is [word([A-Z0-9\-]+)].  The two
    classes share no character, so the longest runs are the match. *)
Definition match_here (word : string) (separated : bool) (s : string)
  : option string :=
  match after_word word s with
  | None => None
  | Some rest =>
      let rest' := if separated then after_run sep_char rest else rest in
      if separated && String.eqb (run sep_char rest) "" then None
      else match run id_char rest' with
           | EmptyString => None
           | group => Some group
           end
  end.

(** [re.search]: the leftmost position with a match. *)
Fixpoint search (word : string) (separated : bool) (s : string) : option string :=
  match match_here word separated s with
  | Some group => Some group
  | None =>
      match s with
      | EmptyString => None
      | String _ s' => search word separated s'
      end
  end.

Definition id_patterns : list (string * bool) :=
  [("ID", true); ("Reference", true); ("Number", true); ("#", false)].

Fixpoint first_match (patterns : list (string * bool)) (text : string)
  : option string :=
  match patterns with
  | [] => None
  | (word, separated) :: rest =>
      match search word separated text with
      | Some group => Some group
      | None => first_match rest text
      end
  end.

(** [_extract_submission_id] *)
Definition _extract_submission_id (text : string) : option string :=
  first_match id_patterns text.

End Submitter.

(** ** Concrete inputs for the examples of the later sections *)

Module Fixtures2.
Import Py Driver FormFiller FormPage GrantData.

Definition named_input (n : string) : DomElement :=
  {| handle := Fixtures.text_input; attr_type := Some "text";
     attr_id := None; label_for := None; attr_placeholder := None;
     attr_name := Some n |}.

Definition bare_input (kind : string) : DomElement :=
  {| handle := Fixtures.text_input; attr_type := Some kind;
     attr_id := None; label_for := None; attr_placeholder := None;
     attr_name := None |}.

Definition program (t s : string) : Scraper.Opportunity :=
  {| Scraper.title := t; Scraper.url := "https://example.com/apply";
     Scraper.description := ""; Scraper.deadline := "";
     Scraper.funding_amount := ""; Scraper.eligibility := "";
     Scraper.source := s; Scraper.discovered_at := "" |}.

Definition sample_master_data : json :=
  JDict [ ("company_info", JDict [("name", JStr "KamandaLabs")]);
          ("founder", JStr "Kamanda Collins");
          ("urls", JDict []) ].

End Fixtures2.

(** * Facts about the built-ins *)

Section StringFacts.
Import Py.

Lemma prefix_spec (sub s : string) :
  String.prefix sub s = true <-> exists post, s = (sub ++ post)%string.
Proof.
  revert s. induction sub as [|a sub IH]; intros s.
  - split; [intros _; exists s; reflexivity | destruct s; reflexivity].
  - destruct s as [|b s]; simpl.
    + split; [discriminate | intros [post H]; discriminate].
    + destruct (Ascii.ascii_dec a b) as [->|Hne].
      * rewrite IH. split; intros [post H]; exists post.
        -- now rewrite H.
        -- now injection H.
      * split; [discriminate|]. intros [post H]. injection H as H1 _.
        now subst.
Qed.

(** [str_in] is Python's substring test. *)
Lemma str_in_spec (sub s : string) :
  str_in sub s = true <-> exists pre post, s = (pre ++ sub ++ post)%string.
Proof.
  induction s as [|c s IH]; cbn [str_in].
  - rewrite orb_false_r, prefix_spec. split.
    + intros [post H]. exists "", post. exact H.
    + intros [pre [post H]]. destruct pre; [|discriminate].
      exists post. exact H.
  - rewrite orb_true_iff, prefix_spec, IH. split.
    + intros [[post H]|[pre [post H]]].
      * exists "", post. exact H.
      * exists (String c pre), post. simpl. now rewrite H.
    + intros [pre [post H]]. destruct pre as [|c' pre]; simpl in H.
      * left. now exists post.
      * right. injection H as _ H. now exists pre, post.
Qed.

Lemma str_in_empty (s : string) : str_in "" s = true.
Proof. destruct s; reflexivity. Qed.

Lemma lower_ascii_idem (c : ascii) : lower_ascii (lower_ascii c) = lower_ascii c.
Proof. destruct c as [[] [] [] [] [] [] [] []]; reflexivity. Qed.

Lemma lower_idem (s : string) : lower (lower s) = lower s.
Proof.
  induction s as [|c s IH]; simpl; [reflexivity|].
  now rewrite lower_ascii_idem, IH.
Qed.

Lemma lower_length (s : string) : String.length (lower s) = String.length s.
Proof. induction s as [|c s IH]; simpl; [reflexivity | now rewrite IH]. Qed.

Lemma filter_nil_Forall {A} (f : A -> bool) (l : list A) :
  List.filter f l = [] -> Forall (fun x => f x = false) l.
Proof.
  induction l as [|x l IH]; simpl; intros H; [constructor|].
  destruct (f x) eqn:E; [discriminate|]. constructor; auto.
Qed.

End StringFacts.

(** * The label resolver *)

Section ResolverFacts.
Import Py Driver FormFiller Fixtures.

(** The first loop returns the value of the first entry, in the order of
    the table, whose key occurs in the label. *)
Lemma direct_mapping_lookup_first (items : list (string * string)) (ll : string) :
  direct_mapping_lookup items ll
  = option_map snd (head (List.filter (fun kv => str_in (fst kv) ll) items)).
Proof.
  induction items as [|[k v] items IH]; simpl; [reflexivity|].
  destruct (str_in k ll); [reflexivity | exact IH].
Qed.

Lemma direct_mapping_lookup_matching (self : IntelligentFormFiller) (ll : string) :
  direct_mapping_lookup (field_mappings self) ll
  = option_map snd (head (Spec.matching_entries self ll)).
Proof. apply direct_mapping_lookup_first. Qed.

(** Entries after the first matching one are never looked at. *)
Lemma direct_mapping_lookup_app (pre post : list (string * string))
    (k v ll : string) :
  Forall (fun kv => str_in (fst kv) ll = false) pre ->
  str_in k ll = true ->
  direct_mapping_lookup (pre ++ (k, v) :: post) ll = Some v.
Proof.
  induction 1 as [|[k' v'] pre Hk _ IH]; intros Hin; simpl.
  - now rewrite Hin.
  - simpl in Hk. rewrite Hk. auto.
Qed.

Lemma no_direct_match (self : IntelligentFormFiller) (ll k v : string) :
  Spec.matching_entries self ll = [] ->
  In (k, v) (field_mappings self) ->
  str_in k ll = false.
Proof.
  intros H Hin. apply filter_nil_Forall in H.
  rewrite List.Forall_forall in H. exact (H (k, v) Hin).
Qed.

Lemma with_patterns_matching (self : IntelligentFormFiller) patterns ll :
  Spec.matching_entries (with_patterns self patterns) ll
  = Spec.matching_entries self ll.
Proof. reflexivity. Qed.

(** The three ways out of [_determine_field_data]. *)
Lemma determine_from_direct (self : IntelligentFormFiller) (ll kind : string)
    kv rest :
  Spec.matching_entries self ll = kv :: rest ->
  determine_from self ll kind = Some (snd kv).
Proof.
  intros H. unfold determine_from.
  now rewrite direct_mapping_lookup_matching, H.
Qed.

Lemma determine_from_pattern (self : IntelligentFormFiller) (ll kind v : string) :
  Spec.matching_entries self ll = [] ->
  pattern_matching self (field_patterns self) ll = Some v ->
  determine_from self ll kind = Some v.
Proof.
  intros H Hp. unfold determine_from.
  rewrite direct_mapping_lookup_matching, H. cbn. now rewrite Hp.
Qed.

Lemma determine_from_special (self : IntelligentFormFiller) (ll kind : string) :
  Spec.matching_entries self ll = [] ->
  pattern_matching self (field_patterns self) ll = None ->
  determine_from self ll kind = special_cases self kind ll.
Proof.
  intros H Hp. unfold determine_from.
  rewrite direct_mapping_lookup_matching, H. cbn. now rewrite Hp.
Qed.

(** C1, as the code has it: the direct-key matcher takes the first key, in
    the order the table is written, that occurs in the lowercased label;
    the length of a key plays no part.  The label "Business Name"
    lowercases to "business name", in which no key of the table occurs
    (the keys are spelled with underscores); it is the category pattern
    [business] that resolves it, to the company name. *)
Theorem direct_key_first_in_table_order :
  (forall (self : IntelligentFormFiller) (field : FormField) kv rest,
      Spec.matching_entries self (lower (label field)) = kv :: rest ->
      _determine_field_data self field = Some (snd kv))
  /\ (forall (doc : MasterDocument) (el : WebElement) (kind : string),
      let field := {| element := el; field_type := kind;
                      label := "Business Name" |} in
      Spec.matching_entries (init doc) (lower (label field)) = []
      /\ pattern_matching (init doc) default_field_patterns (lower (label field))
         = Some (company_name (company doc))
      /\ _determine_field_data (init doc) field
         = Some (company_name (company doc))).
Proof.
  split.
  - intros self field kv rest H.
    now apply (determine_from_direct _ _ _ kv rest).
  - intros doc el kind field. repeat split; reflexivity.
Qed.

Lemma direct_key_first_in_table_order_witness :
  Spec.matching_entries default_filler (lower "Summary of use_of_funds")
  = [ ("summary", executive_summary default_master_document);
      ("use_of_funds", join "; " (use_of_funds default_financial)) ]
  /\ _determine_field_data default_filler
       (field_of "Summary of use_of_funds" "text")
     = Some (executive_summary default_master_document).
Proof.
  split; [vm_compute; reflexivity|].
  apply (proj1 direct_key_first_in_table_order default_filler
           (field_of "Summary of use_of_funds" "text")
           ("summary", executive_summary default_master_document)
           [("use_of_funds", join "; " (use_of_funds default_financial))]).
  vm_compute; reflexivity.
Defined.

(** C1 as the specification words it fails: in "Summary of use_of_funds"
    the keys [summary] and [use_of_funds] both occur, the longer one is
    [use_of_funds], and the answer is the executive summary.  And with
    both [business] and [business_name] in the table, "Business Name"
    resolves through [business]. *)
Lemma longest_key_counterexample :
  ~ Spec.selects_longest_key default_filler
      (field_of "Summary of use_of_funds" "text")
  /\ (forall a b : string,
        _determine_field_data (two_key_filler a b)
          (field_of "Business Name" "text") = Some a).
Proof.
  split; [|reflexivity].
  intros H.
  specialize (H ("use_of_funds", join "; " (use_of_funds default_financial))).
  assert (Hl : Spec.is_longest_match default_filler
                 (lower (label (field_of "Summary of use_of_funds" "text")))
                 ("use_of_funds", join "; " (use_of_funds default_financial))).
  { split; vm_compute; [auto | repeat constructor]. }
  specialize (H Hl). vm_compute in H. discriminate H.
Qed.

(** C4: the strategies run in the order direct key, category pattern,
    special cases, and the first that yields a value decides.  When a key
    occurs in the label the answer is that entry's value whatever the
    pattern table and the field type are; when no key does and a pattern
    yields a value, the answer is that value whatever the field type is;
    the special cases are consulted only when both came back empty. *)
Theorem resolve_priority_chain (self : IntelligentFormFiller) (field : FormField) :
  let ll := lower (label field) in
  (forall kv rest, Spec.matching_entries self ll = kv :: rest ->
     forall patterns kind,
       _determine_field_data (with_patterns self patterns) (with_type field kind)
       = Some (snd kv))
  /\ (Spec.matching_entries self ll = [] ->
      forall v, pattern_matching self (field_patterns self) ll = Some v ->
      forall kind, _determine_field_data self (with_type field kind) = Some v)
  /\ (Spec.matching_entries self ll = [] ->
      pattern_matching self (field_patterns self) ll = None ->
      _determine_field_data self field
      = special_cases self (field_type field) ll).
Proof.
  intros ll. unfold _determine_field_data. split; [|split].
  - intros kv rest H patterns kind. cbn [label field_type with_type].
    apply (determine_from_direct _ _ _ kv rest).
    now rewrite with_patterns_matching.
  - intros H v Hp kind. cbn [label field_type with_type].
    now apply determine_from_pattern.
  - intros H Hp. now apply determine_from_special.
Qed.

Lemma resolve_priority_chain_witness :
  _determine_field_data (with_patterns default_filler [])
    (with_type (field_of "Email Address" "text") "url")
  = Some (founder_email default_founder)
  /\ _determine_field_data default_filler
       (with_type (field_of "Business Name" "text") "email")
     = Some (company_name default_company)
  /\ _determine_field_data default_filler (field_of "" "tel")
     = special_cases default_filler "tel" "".
Proof.
  pose proof (resolve_priority_chain default_filler
                (field_of "Email Address" "text")) as [H1 _].
  pose proof (resolve_priority_chain default_filler
                (field_of "Business Name" "text")) as [_ [H2 _]].
  pose proof (resolve_priority_chain default_filler
                (field_of "" "tel")) as [_ [_ H3]].
  split; [|split].
  - apply (H1 ("email", founder_email default_founder) []).
    vm_compute; reflexivity.
  - apply H2; vm_compute; reflexivity.
  - apply H3; vm_compute; reflexivity.
Defined.

(** Lowercasing works character by character, in place. *)
Lemma lower_get (s : string) (i : nat) :
  String.get i (lower s) = option_map lower_ascii (String.get i s).
Proof.
  revert i. induction s as [|c s IH]; intros [|i]; simpl; auto.
Qed.

Lemma lower_ascii_other (c : ascii) :
  PyStr.is_upper c = false -> lower_ascii c = c.
Proof. unfold PyStr.is_upper, lower_ascii. now intros ->. Qed.

Lemma lower_ascii_upper (c : ascii) :
  PyStr.is_upper c = true ->
  N_of_ascii (lower_ascii c) = (N_of_ascii c + 32)%N.
Proof. destruct c as [[] [] [] [] [] [] [] []]; vm_compute; congruence. Qed.

(** C6, as the code has it: [_determine_field_data] lowercases the
    label, once, and does nothing else to it; the three matchers (the
    keys of the table, the category patterns, the special cases) all read
    that lowercased label and the answer is theirs, in this order.  So
    two labels that agree after lowercasing resolve alike, and lowercasing
    beforehand changes nothing.  On an ASCII label lowercasing removes,
    merges and moves no character: [A]..[Z] become [a]..[z], every other
    character stays as and where it is.  Punctuation therefore reaches
    the matchers: "E.mail" on a text field resolves to nothing, "Email"
    to the founder's e-mail address. *)
Theorem label_lowercased_once :
  (forall (self : IntelligentFormFiller) (field : FormField),
      let label_lower := lower (label field) in
      _determine_field_data self field
      = match Spec.matching_entries self label_lower with
        | kv :: _ => Some (snd kv)
        | [] =>
            match pattern_matching self (field_patterns self) label_lower with
            | Some data => Some data
            | None => special_cases self (field_type field) label_lower
            end
        end)
  /\ (forall (self : IntelligentFormFiller) (f1 f2 : FormField),
      lower (label f1) = lower (label f2) ->
      field_type f1 = field_type f2 ->
      _determine_field_data self f1 = _determine_field_data self f2)
  /\ (forall (self : IntelligentFormFiller) (f : FormField),
      _determine_field_data self (with_label f (lower (label f)))
      = _determine_field_data self f)
  /\ (forall s : string,
      PyStr.all_chars PyStr.is_ascii s = true ->
      String.length (lower s) = String.length s
      /\ forall (i : nat) (c : ascii),
           String.get i s = Some c ->
           String.get i (lower s) = Some (lower_ascii c)
           /\ (PyStr.is_upper c = false -> lower_ascii c = c)
           /\ (PyStr.is_upper c = true ->
               N_of_ascii (lower_ascii c) = (N_of_ascii c + 32)%N))
  /\ (forall (doc : MasterDocument) (el : WebElement),
      _determine_field_data (init doc)
        {| element := el; field_type := "text"; label := "E.mail" |} = None
      /\ _determine_field_data (init doc)
           {| element := el; field_type := "text"; label := "Email" |}
         = Some (founder_email (founder doc))).
Proof.
  split; [|split; [|split; [|split]]].
  - intros self field label_lower. subst label_lower.
    unfold _determine_field_data, determine_from.
    rewrite direct_mapping_lookup_matching.
    now destruct (Spec.matching_entries self (lower (label field))).
  - intros self f1 f2 Hl Ht. unfold _determine_field_data.
    now rewrite Hl, Ht.
  - intros self f. unfold _determine_field_data.
    cbn [label field_type with_label]. now rewrite lower_idem.
  - intros s _. split; [apply lower_length|].
    intros i c Hc. rewrite lower_get, Hc.
    split; [reflexivity|].
    split; [apply lower_ascii_other | apply lower_ascii_upper].
  - intros doc el. split; reflexivity.
Qed.

Lemma label_lowercased_once_witness :
  lower "EMAIL" = lower "Email"
  /\ _determine_field_data default_filler (field_of "EMAIL" "text")
     = _determine_field_data default_filler (field_of "Email" "text")
  /\ PyStr.all_chars PyStr.is_ascii "E.mail" = true
  /\ String.length (lower "E.mail") = String.length "E.mail"
  /\ String.get 1 (lower "E.mail") = Some "."%char.
Proof.
  split; [reflexivity|]. split; [|split; [reflexivity|]].
  - apply (proj1 (proj2 label_lowercased_once) default_filler
             (field_of "EMAIL" "text") (field_of "Email" "text"));
      reflexivity.
  - destruct (proj1 (proj2 (proj2 (proj2 label_lowercased_once))) "E.mail"
                eq_refl) as [Hlen Hget].
    split; [exact Hlen|].
    exact (proj1 (Hget 1 "."%char eq_refl)).
Defined.

(** C6 as the specification words it fails: "E.mail" reaches the matchers
    as "e.mail", which nothing matches; the normalized label "email"
    would have resolved to the founder's e-mail address. *)
Lemma normalization_counterexample :
  ~ Spec.normalized_label_feeds_matchers default_filler
      (field_of "E.mail" "text").
Proof. unfold Spec.normalized_label_feeds_matchers. vm_compute. discriminate. Qed.

(** The other resolver, [fill_form_field] of [grant.py], does strip
    characters, the word-internal hyphen among them, and keeps runs of
    blanks. *)
Lemma label_clean_examples :
  Grant.label_clean "E-mail" = "email"
  /\ Spec.spec_normalize "E-mail" = "e-mail"
  /\ Grant.label_clean "Company  Name *" = "company  name ".
Proof. repeat split; reflexivity. Qed.

(** When no key of the table occurs in the label, none of the words the
    special cases look for and that are keys occurs either. *)
Lemma no_direct_match_words (doc : MasterDocument) (ll : string) :
  Spec.matching_entries (init doc) ll = [] ->
  str_in "email" ll = false /\ str_in "phone" ll = false
  /\ str_in "mobile" ll = false.
Proof.
  intros H. repeat split.
  - apply (no_direct_match (init doc) ll "email" (founder_email (founder doc)) H).
    cbn. tauto.
  - apply (no_direct_match (init doc) ll "phone" (founder_phone (founder doc)) H).
    cbn. tauto.
  - apply (no_direct_match (init doc) ll "mobile" (founder_phone (founder doc)) H).
    cbn. tauto.
Qed.

(** C9, as the code has it: "Email Address" on a text field and an
    unlabeled e-mail field both resolve to the founder's e-mail address.
    When neither a key nor a pattern matched, the special cases map field
    type [email] to the founder's e-mail address, [tel] to the founder's
    phone, and [url] to the company website unless the label contains
    "tel", in which case the answer is the founder's phone: the test for
    phone words in the label comes before the test for the [url] type. *)
Theorem email_paths_converge (doc : MasterDocument) (el : WebElement) :
  let self := init doc in
  let field := fun l kind => {| element := el; field_type := kind; label := l |} in
  _determine_field_data self (field "Email Address" "text")
  = Some (founder_email (founder doc))
  /\ _determine_field_data self (field "" "email")
     = Some (founder_email (founder doc))
  /\ (forall l : string,
        Spec.matching_entries self (lower l) = [] ->
        pattern_matching self (field_patterns self) (lower l) = None ->
        _determine_field_data self (field l "email")
        = Some (founder_email (founder doc))
        /\ _determine_field_data self (field l "tel")
           = Some (founder_phone (founder doc))
        /\ _determine_field_data self (field l "url")
           = (if str_in "tel" (lower l)
              then Some (founder_phone (founder doc))
              else Some (company_website (company doc)))).
Proof.
  intros self field. split; [reflexivity|]. split; [reflexivity|].
  intros l Hd Hp.
  destruct (no_direct_match_words doc (lower l) Hd) as [He [Hph Hm]].
  unfold _determine_field_data, field. cbn [label field_type].
  rewrite !(determine_from_special self (lower l) _ Hd Hp).
  unfold special_cases, any_in. cbn [existsb].
  rewrite He, Hph, Hm. cbn.
  split; [reflexivity|]. split; [reflexivity|].
  now destruct (str_in "tel" (lower l)).
Qed.

Lemma email_paths_converge_witness :
  (Spec.matching_entries default_filler (lower "Hotel") = []
   /\ pattern_matching default_filler (field_patterns default_filler)
        (lower "Hotel") = None
   /\ _determine_field_data default_filler (field_of "Hotel" "tel")
      = Some (founder_phone default_founder)
   /\ _determine_field_data default_filler (field_of "Hotel" "url")
      = Some (founder_phone default_founder))
  /\ (Spec.matching_entries default_filler (lower "") = []
      /\ pattern_matching default_filler (field_patterns default_filler)
           (lower "") = None
      /\ _determine_field_data default_filler (field_of "" "url")
         = Some (company_website default_company)).
Proof.
  destruct (email_paths_converge default_master_document text_input)
    as [_ [_ H]].
  split.
  - assert (Hd : Spec.matching_entries default_filler (lower "Hotel") = [])
      by reflexivity.
    assert (Hp : pattern_matching default_filler
                   (field_patterns default_filler) (lower "Hotel") = None)
      by reflexivity.
    destruct (H "Hotel" Hd Hp) as [_ [Htel Hurl]].
    split; [exact Hd|]. split; [exact Hp|]. split; [exact Htel|].
    exact Hurl.
  - assert (Hd : Spec.matching_entries default_filler (lower "") = [])
      by reflexivity.
    assert (Hp : pattern_matching default_filler
                   (field_patterns default_filler) (lower "") = None)
      by reflexivity.
    destruct (H "" Hd Hp) as [_ [_ Hurl]].
    split; [exact Hd|]. split; [exact Hp|]. exact Hurl.
Defined.

(** C9 as the specification words it fails: in "Hotel" no key and no
    pattern occurs, the field type is [url], and the answer is the
    founder's phone, not the company website, because "hotel" contains
    "tel". *)
Lemma url_kind_counterexample :
  Spec.matching_entries default_filler (lower "Hotel") = []
  /\ pattern_matching default_filler (field_patterns default_filler)
       (lower "Hotel") = None
  /\ _determine_field_data default_filler (field_of "Hotel" "url")
     = Some (founder_phone default_founder)
  /\ _determine_field_data default_filler (field_of "Hotel" "url")
     <> Some (company_website default_company).
Proof.
  split; [reflexivity|]. split; [reflexivity|]. split; [reflexivity|].
  vm_compute. discriminate.
Qed.

End ResolverFacts.

(** * The option matcher and the fill step *)

Section FillFacts.
Import Py Driver FormFiller Fixtures.

Lemma first_accepting_with_Some (fold : string -> string) (data : string)
    (options : list string) (i : nat) :
  Spec.first_accepting_with fold data options = Some i <->
  (exists o, options !! i = Some o /\ Spec.accepts_with fold data o = true)
  /\ (forall j o', j < i -> options !! j = Some o' ->
        Spec.accepts_with fold data o' = false).
Proof.
  revert i. induction options as [|o options IH]; intros i; simpl.
  - split; [discriminate|]. intros [[o [H _]] _]. discriminate.
  - destruct (Spec.accepts_with fold data o) eqn:E.
    + split.
      * intros [= <-]. split; [exists o; auto|]. intros j o' Hj. lia.
      * intros [[o1 [Hi Ha]] Hmin]. destruct i as [|i]; [reflexivity|].
        specialize (Hmin 0 o ltac:(lia) eq_refl). congruence.
    + destruct i as [|i].
      * split.
        -- destruct (Spec.first_accepting_with fold data options); discriminate.
        -- intros [[o1 [Hi Ha]] _]. simpl in Hi. congruence.
      * assert (Hm : option_map S (Spec.first_accepting_with fold data options)
                     = Some (S i)
                     <-> Spec.first_accepting_with fold data options = Some i).
        { destruct (Spec.first_accepting_with fold data options); simpl;
            split; congruence. }
        rewrite Hm, IH. split.
        -- intros [[o1 [Hl Ha]] Hmin]. split; [exists o1; auto|].
           intros [|j] o' Hj Hl'; simpl in Hl'; [congruence|].
           apply (Hmin j); [lia | exact Hl'].
        -- intros [[o1 [Hl Ha]] Hmin]. split; [exists o1; auto|].
           intros j o' Hj Hl'. apply (Hmin (S j)); [lia | exact Hl'].
Qed.

Lemma first_accepting_with_None (fold : string -> string) (data : string)
    (options : list string) :
  Spec.first_accepting_with fold data options = None <->
  Forall (fun o => Spec.accepts_with fold data o = false) options.
Proof.
  induction options as [|o options IH]; simpl.
  - split; auto.
  - destruct (Spec.accepts_with fold data o) eqn:E.
    + split; [discriminate|]. intros H. inversion H; congruence.
    + destruct (Spec.first_accepting_with fold data options); simpl.
      * split; [discriminate|]. intros H. inversion H; subst.
        now apply IH in H3.
      * split; [|reflexivity]. intros _. constructor; [exact E|].
        now apply IH.
Qed.

(** The loop over [enumerate(options)], started at index [n]: it stops at
    the first accepting option and asks the browser for that index. *)
Lemma select_first_scan (fold : string -> string) (select : WebElement)
    (data : string) (options : list string) (n : nat) :
  select_first select (fold data)
    (combine (seq n (List.length (map fold options))) (map fold options))
  = match Spec.first_accepting_with fold data options with
    | Some i => select_by_index select (n + i) ;; ret true
    | None => ret false
    end.
Proof.
  revert n.
  induction options as [|o options IH]; intros n; [reflexivity|].
  cbn [map List.length seq combine select_first Spec.first_accepting_with].
  unfold Spec.accepts_with.
  destruct (str_in (fold data) (fold o) || str_in (fold o) (fold data)).
  - now rewrite Nat.add_0_r.
  - rewrite IH. destruct (Spec.first_accepting_with fold data options); simpl;
      [now rewrite Nat.add_succ_r | reflexivity].
Qed.

(** What the option matcher does, on every element and for every case
    folding. *)
Lemma _fill_select_field_with_spec (fold : string -> string)
    (element : WebElement) (data : string) :
  _fill_select_field_with fold element data
  = match Spec.first_accepting_with fold data (option_texts element) with
    | Some i =>
        if is_select element && interactable element (SelectByIndex i)
        then (Ok true, [SelectByIndex i])
        else (Ok false, [])
    | None => (Ok false, [])
    end.
Proof.
  unfold _fill_select_field_with, Select.
  destruct (is_select element) eqn:Hs.
  - unfold mbind, drv_bind at 1, bind at 1. cbn [ret app].
    unfold enumerate. rewrite (select_first_scan fold element data _ 0).
    destruct (Spec.first_accepting_with fold data (option_texts element))
      as [i|]; [|reflexivity].
    unfold select_by_index, act. cbn [Nat.add andb].
    destruct (interactable element (SelectByIndex i)); reflexivity.
  - destruct (Spec.first_accepting_with fold data (option_texts element));
      reflexivity.
Qed.

(** What [_fill_select_field] does, on every element. *)
Lemma _fill_select_field_spec (element : WebElement) (data : string) :
  _fill_select_field element data
  = match Spec.first_accepting_with lower data (option_texts element) with
    | Some i =>
        if is_select element && interactable element (SelectByIndex i)
        then (Ok true, [SelectByIndex i])
        else (Ok false, [])
    | None => (Ok false, [])
    end.
Proof. apply (_fill_select_field_with_spec lower). Qed.

(** A handler that returns [False] makes the whole statement return. *)
Lemma try_except_returns (m : Drv bool) :
  exists b w, try_except m (fun _ => ret false) = (Ok b, w).
Proof.
  destruct m as [[b|e] w]; simpl; eauto.
Qed.

(** C3, as the code has it: on a select element that takes the call, the
    option matcher takes the first option, in list order, whose
    case-folded text contains the case-folded value or is contained in
    it, and selects it by its index; this holds whatever [str.lower]
    folds.  On no element does it ask the browser for any other index
    than that of the first accepting option.  Case is all that is
    folded: punctuation and blanks are compared as they stand, so the
    value "Early Stage / MVP" is not accepted by the option
    "Early Stage MVP".  With the options "Early Stage", "Growth Stage" and
    the value "Early Stage / MVP" the matcher selects index 0,
    "Early Stage", also when the value comes from the default profile
    through the label "Stage". *)
Theorem select_takes_first_accepting :
  (forall (fold : string -> string) (element : WebElement) (data : string),
      is_select element = true ->
      (forall i, interactable element (SelectByIndex i) = true) ->
      (exists o, In o (option_texts element)
                 /\ Spec.accepts_with fold data o = true) ->
      exists i o,
        option_texts element !! i = Some o
        /\ Spec.accepts_with fold data o = true
        /\ (forall j o', j < i -> option_texts element !! j = Some o' ->
              Spec.accepts_with fold data o' = false)
        /\ _fill_select_field_with fold element data
           = (Ok true, [SelectByIndex i]))
  /\ (forall (fold : string -> string) (element : WebElement) (data : string),
        let calls := snd (_fill_select_field_with fold element data) in
        calls = []
        \/ exists i,
             Spec.first_accepting_with fold data (option_texts element) = Some i
             /\ calls = [SelectByIndex i])
  /\ (forall (element : WebElement) (data : string),
        _fill_select_field element data
        = _fill_select_field_with lower element data)
  /\ (forall data o : string,
        Spec.accepts_with lower data o
        = str_in (lower data) (lower o) || str_in (lower o) (lower data))
  /\ Spec.accepts_with lower "Early Stage / MVP" "Early Stage MVP" = false
  /\ _fill_select_field stage_select "Early Stage / MVP"
     = (Ok true, [SelectByIndex 0])
  /\ option_texts stage_select !! 0 = Some "Early Stage"
  /\ Spec.accepts_with lower "Early Stage / MVP" "Growth Stage" = false
  /\ _fill_field default_filler
       {| element := stage_select; field_type := "select"; label := "Stage" |}
     = (Ok true, [SelectByIndex 0]).
Proof.
  split; [|split; [|repeat split]].
  2: { intros fold element data calls. subst calls.
       rewrite _fill_select_field_with_spec.
       destruct (Spec.first_accepting_with fold data (option_texts element))
         as [i|]; [|now left].
       destruct (is_select element && interactable element (SelectByIndex i));
         [right; exists i; auto | now left]. }
  intros fold element data Hs Hi [o [Hin Ha]].
  rewrite _fill_select_field_with_spec, Hs.
  destruct (Spec.first_accepting_with fold data (option_texts element))
    as [i|] eqn:E.
  - rewrite Hi. cbn [andb].
    apply first_accepting_with_Some in E as [[o1 [Hl Ha1]] Hmin].
    exists i, o1. auto.
  - apply first_accepting_with_None in E. rewrite List.Forall_forall in E.
    specialize (E o Hin). congruence.
Qed.

Lemma select_takes_first_accepting_witness :
  exists i o,
    option_texts stage_select !! i = Some o
    /\ Spec.accepts_with lower "Early Stage / MVP" o = true
    /\ (forall j o', j < i -> option_texts stage_select !! j = Some o' ->
          Spec.accepts_with lower "Early Stage / MVP" o' = false)
    /\ _fill_select_field_with lower stage_select "Early Stage / MVP"
       = (Ok true, [SelectByIndex i]).
Proof.
  apply (proj1 select_takes_first_accepting lower stage_select
           "Early Stage / MVP");
    [reflexivity | intros i; reflexivity |].
  exists "Early Stage". split; [simpl; auto | reflexivity].
Defined.

(** C3 as the specification words it fails: the value "Early Stage / MVP"
    and the option "Early Stage MVP" have the same normalized text,
    "early stage mvp", so the option is accepted in the specification's
    sense and is the first such; the matcher selects nothing, because
    "early stage / mvp" and "early stage mvp" do not contain one
    another. *)
Lemma normalized_containment_counterexample :
  Spec.spec_normalize "Early Stage / MVP" = "early stage mvp"
  /\ Spec.spec_normalize "Early Stage MVP" = "early stage mvp"
  /\ Spec.accepts_normalized "Early Stage / MVP" "Early Stage MVP" = true
  /\ _fill_select_field mvp_select "Early Stage / MVP" = (Ok false, [])
  /\ ~ Spec.selects_first_normalized mvp_select "Early Stage / MVP".
Proof.
  split; [reflexivity|]. split; [reflexivity|]. split; [reflexivity|].
  split; [reflexivity|].
  intros H. destruct H as [i [o [_ [_ [_ Hf]]]]].
  - exists "Early Stage MVP". split; [simpl; auto | reflexivity].
  - vm_compute in Hf. discriminate Hf.
Qed.

(** C7: a select field without options is left alone, whatever its label:
    [_fill_field] returns [False], touches nothing and does not raise.
    More generally [_fill_field] and [_fill_select_field] return a boolean
    on every input, also when the browser raises underneath. *)
Theorem empty_options_unresolved :
  (forall (self : IntelligentFormFiller) (field : FormField),
      field_type field = "select" ->
      option_texts (element field) = [] ->
      _fill_field self field = (Ok false, []))
  /\ (forall (self : IntelligentFormFiller) (field : FormField),
      exists b w, _fill_field self field = (Ok b, w))
  /\ (forall (element : WebElement) (data : string),
      exists b w, _fill_select_field element data = (Ok b, w)).
Proof.
  split; [|split].
  - intros self field Ht Ho. unfold _fill_field. rewrite Ht.
    destruct (_determine_field_data self field) as [[|c s]|];
      try reflexivity.
    cbn -[_fill_select_field].
    now rewrite _fill_select_field_spec, Ho.
  - intros self field. apply try_except_returns.
  - intros element data. apply try_except_returns.
Qed.

Lemma empty_options_unresolved_witness :
  _fill_field default_filler
    {| element := empty_select; field_type := "select"; label := "Stage" |}
  = (Ok false, []).
Proof.
  apply (proj1 empty_options_unresolved default_filler
           {| element := empty_select; field_type := "select";
              label := "Stage" |});
    reflexivity.
Defined.

End FillFacts.

(** * The ranker *)

Section RankerFacts.
Import Py Grant Fixtures.
Local Open Scope Z_scope.
Local Set Warnings "-clear-no-such-hyp".

Lemma str_elem_spec (x : string) (l : list string) :
  str_elem x l = true <-> x ∈ l.
Proof.
  unfold str_elem. rewrite existsb_exists, list_elem_of_In. split.
  - intros [y [Hin Heq]]. apply String.eqb_eq in Heq. now subst.
  - intros Hin. exists x. split; [exact Hin | apply String.eqb_refl].
Qed.

Lemma keyword_list_NoDup : NoDup keyword_list.
Proof. apply (bool_decide_unpack _). vm_compute. exact I. Qed.

(** [len(keywords & focus_set)] counts the keywords found among the tags. *)
Lemma intersection_size (kl tags : list string) :
  NoDup kl ->
  size ((list_to_set kl : gset string) ∩ list_to_set tags)
  = List.length (List.filter (fun k => str_elem k tags) kl).
Proof.
  induction 1 as [|k kl Hk Hnd IH]; simpl.
  - now rewrite intersection_empty_l_L.
  - destruct (str_elem k tags) eqn:E.
    + apply str_elem_spec in E.
      assert (Heq : ({[k]} ∪ (list_to_set kl : gset string)) ∩ list_to_set tags
                    = {[k]} ∪ (list_to_set kl ∩ list_to_set tags))
        by set_solver.
      rewrite Heq, size_union, size_singleton by set_solver.
      simpl. now rewrite IH.
    + assert (Hn : k ∉ tags).
      { intros Hin. apply str_elem_spec in Hin. congruence. }
      assert (Heq : ({[k]} ∪ (list_to_set kl : gset string)) ∩ list_to_set tags
                    = list_to_set kl ∩ list_to_set tags)
        by set_solver.
      now rewrite Heq.
Qed.

Lemma overlap_keyword_hits (opp : Opportunity) :
  overlap keywords opp = Spec.keyword_hits keyword_list opp.
Proof.
  unfold overlap, focus_set, keywords, Spec.keyword_hits.
  apply intersection_size, keyword_list_NoDup.
Qed.

(** The score is read off [focus] alone, which writing the score leaves
    untouched. *)
Lemma score_set_relevance_score (K : gset string) (opp : Opportunity) (s : Z) :
  score K (set_relevance_score opp s) = score K opp.
Proof. reflexivity. Qed.

Lemma enrich_idem (K : gset string) (opp : Opportunity) :
  enrich K (enrich K opp) = enrich K opp.
Proof. reflexivity. Qed.

Lemma sort_key_enrich (K : gset string) (opp : Opportunity) :
  sort_key (enrich K opp) = score K opp.
Proof. reflexivity. Qed.

(** ** The sort *)

Section Sorting.
Context {A : Type} (key : A -> Z).

Lemma insert_reverse_perm (x : A) (l : list A) :
  Permutation (insert_reverse key x l) (x :: l).
Proof.
  induction l as [|y l IH]; simpl; [reflexivity|].
  destruct (key x <? key y); [|reflexivity].
  rewrite IH. apply perm_swap.
Qed.

Lemma sorted_reverse_perm (l : list A) : Permutation (sorted_reverse key l) l.
Proof.
  induction l as [|x l IH]; simpl; [reflexivity|].
  now rewrite insert_reverse_perm, IH.
Qed.

Lemma insert_reverse_sorted (x : A) (l : list A) :
  StronglySorted (fun a b => key b <= key a) l ->
  StronglySorted (fun a b => key b <= key a) (insert_reverse key x l).
Proof.
  induction 1 as [|y l Hs IH Hall]; simpl.
  - repeat constructor.
  - destruct (key x <? key y) eqn:E.
    + apply Z.ltb_lt in E. constructor; [exact IH|].
      apply (Permutation_Forall (x := x :: l)).
      * symmetry. apply insert_reverse_perm.
      * constructor; [lia | exact Hall].
    + apply Z.ltb_ge in E. constructor.
      * constructor; assumption.
      * constructor; [exact E|].
        eapply List.Forall_impl; [|exact Hall]. simpl. intros; lia.
Qed.

Lemma sorted_reverse_sorted (l : list A) :
  StronglySorted (fun a b => key b <= key a) (sorted_reverse key l).
Proof.
  induction l as [|x l IH]; simpl; [constructor|].
  now apply insert_reverse_sorted.
Qed.

(** Stability: an item only ever moves past items with another key. *)
Lemma insert_reverse_filter (s : Z) (x : A) (l : list A) :
  List.filter (fun y => key y =? s) (insert_reverse key x l)
  = List.filter (fun y => key y =? s) (x :: l).
Proof.
  induction l as [|y l IH]; [reflexivity|].
  cbn [insert_reverse]. destruct (key x <? key y) eqn:E; [|reflexivity].
  apply Z.ltb_lt in E. cbn [List.filter] in *. rewrite IH.
  destruct (key y =? s) eqn:Ey, (key x =? s) eqn:Ex; try reflexivity.
  apply Z.eqb_eq in Ey, Ex. lia.
Qed.

Lemma sorted_reverse_filter (s : Z) (l : list A) :
  List.filter (fun y => key y =? s) (sorted_reverse key l)
  = List.filter (fun y => key y =? s) l.
Proof.
  induction l as [|x l IH]; [reflexivity|].
  cbn [sorted_reverse]. rewrite insert_reverse_filter.
  cbn [List.filter]. now rewrite IH.
Qed.

(** A list already in descending order comes back as it is. *)
Lemma sorted_reverse_fixed (l : list A) :
  StronglySorted (fun a b => key b <= key a) l ->
  sorted_reverse key l = l.
Proof.
  induction 1 as [|x l Hs IH Hall]; [reflexivity|].
  cbn [sorted_reverse]. rewrite IH.
  destruct l as [|y l]; [reflexivity|]. cbn [insert_reverse].
  inversion Hall as [|? ? Hy _]; subst.
  destruct (key x <? key y) eqn:E; [|reflexivity].
  apply Z.ltb_lt in E. lia.
Qed.

End Sorting.

Lemma filter_map_comm {A B} (f : B -> bool) (g : A -> B) (l : list A) :
  List.filter f (map g l) = map g (List.filter (fun x => f (g x)) l).
Proof.
  induction l as [|x l IH]; simpl; [reflexivity|].
  destruct (f (g x)); simpl; now rewrite IH.
Qed.

Lemma map_fixed {A} (f : A -> A) (l : list A) :
  Forall (fun x => f x = x) l -> map f l = l.
Proof. induction 1; simpl; congruence. Qed.

(** Every record that comes out is an input record with its score written. *)
Lemma rank_enriched (opps : list Opportunity) :
  Forall (fun o => exists o0, In o0 opps /\ o = enrich keywords o0)
         (filter_opportunities_by_relevance opps).
Proof.
  unfold filter_opportunities_by_relevance.
  apply (Permutation_Forall (x := map (enrich keywords) opps)).
  - symmetry. apply sorted_reverse_perm.
  - rewrite List.Forall_forall. intros o Hin.
    apply in_map_iff in Hin as [o0 [Heq Hin]]. eauto.
Qed.

Lemma rank_scores (opps : list Opportunity) :
  Forall (fun o => relevance_score o = Some (score keywords o))
         (filter_opportunities_by_relevance opps).
Proof.
  eapply List.Forall_impl; [|apply rank_enriched].
  intros o [o0 [_ ->]]. reflexivity.
Qed.

(** C2: every record the ranker returns carries
    [min(10, 2 + 2 * overlap)], where [overlap] counts the keywords of the
    fixed set that occur among the record's lowercased tags.  With the
    tags Climate, Technology, Africa the score is 6, under the keyword set
    {climate, africa} as under the fixed set of the code; with no tags, or
    no [focus] key at all, it is 2. *)
Theorem relevance_score_formula :
  (forall opps : list Opportunity,
      Forall (fun o =>
                relevance_score o
                = Some (Z.min 10
                          (2 + 2 * Z.of_nat (Spec.keyword_hits keyword_list o))))
             (filter_opportunities_by_relevance opps))
  /\ (forall opp : Opportunity,
        score keywords opp
        = Z.min 10 (2 + 2 * Z.of_nat (Spec.keyword_hits keyword_list opp)))
  /\ score (list_to_set ["climate"; "africa"])
        (opportunity "a" (Some ["Climate"; "Technology"; "Africa"])) = 6
  /\ map relevance_score
        (filter_opportunities_by_relevance
           [ opportunity "b" (Some []);
             opportunity "a" (Some ["Climate"; "Technology"; "Africa"]);
             opportunity "c" None ])
     = [Some 6; Some 2; Some 2].
Proof.
  assert (Hs : forall opp : Opportunity,
             score keywords opp
             = Z.min 10 (2 + 2 * Z.of_nat (Spec.keyword_hits keyword_list opp))).
  { intros opp. unfold score. rewrite overlap_keyword_hits. f_equal. lia. }
  split; [|split; [exact Hs | split; vm_compute; reflexivity]].
  intros opps. eapply List.Forall_impl; [|apply rank_scores].
  intros o Ho. cbn beta in Ho. now rewrite Ho, Hs.
Qed.

(** C10: every record the ranker returns carries a score of at least 2;
    the score is one of 2, 4, 6, 8, 10. *)
Theorem relevance_score_at_least_two (opps : list Opportunity) :
  Forall (fun o =>
            exists s, relevance_score o = Some s
                      /\ 2 <= s
                      /\ (s = 2 \/ s = 4 \/ s = 6 \/ s = 8 \/ s = 10))
         (filter_opportunities_by_relevance opps).
Proof.
  eapply List.Forall_impl; [|apply rank_scores].
  intros o Ho. cbn beta in Ho. exists (score keywords o).
  split; [exact Ho|]. unfold score.
  destruct (overlap keywords o) as [|[|[|[|n]]]]; lia.
Qed.

(** C5: the ranker returns the input records, each with its score
    written, in descending order of score, and the sort is stable: for
    every score, the records of the output that carry it are the records
    of the input that receive it, in input order. *)
Theorem rank_descending_stable (opps : list Opportunity) :
  let out := filter_opportunities_by_relevance opps in
  Spec.descending out
  /\ Permutation out (map (enrich keywords) opps)
  /\ (forall s : Z,
        Spec.with_score s out
        = map (enrich keywords)
            (List.filter (fun o => score keywords o =? s) opps)).
Proof.
  unfold filter_opportunities_by_relevance, Spec.descending, Spec.with_score.
  split; [apply sorted_reverse_sorted|].
  split; [apply sorted_reverse_perm|].
  intros s. rewrite sorted_reverse_filter. apply filter_map_comm.
Qed.

(** C8: ranking what the ranker returned gives the same list again, the
    same order and the same scores. *)
Theorem rank_idempotent (opps : list Opportunity) :
  filter_opportunities_by_relevance (filter_opportunities_by_relevance opps)
  = filter_opportunities_by_relevance opps
  /\ map relevance_score
       (filter_opportunities_by_relevance
          (filter_opportunities_by_relevance opps))
     = map relevance_score (filter_opportunities_by_relevance opps).
Proof.
  assert (H : filter_opportunities_by_relevance
                (filter_opportunities_by_relevance opps)
              = filter_opportunities_by_relevance opps).
  { unfold filter_opportunities_by_relevance at 1.
    rewrite map_fixed.
    - apply sorted_reverse_fixed. apply sorted_reverse_sorted.
    - eapply List.Forall_impl; [|apply rank_enriched].
      intros o [o0 [_ ->]]. apply enrich_idem. }
  split; [exact H | now rewrite H].
Qed.

End RankerFacts.

(** * More about the fill step *)

Section FillStepFacts.
Import Py Driver FormFiller Fixtures.

(** [_fill_field], case by case. *)
Lemma _fill_field_no_data (self : IntelligentFormFiller) (field : FormField) :
  _determine_field_data self field = None
  \/ _determine_field_data self field = Some "" ->
  _fill_field self field = (Ok false, []).
Proof. intros [H|H]; unfold _fill_field; now rewrite H. Qed.

Lemma _fill_field_data (self : IntelligentFormFiller) (field : FormField)
    (data : string) :
  _determine_field_data self field = Some data -> data <> "" ->
  _fill_field self field
  = if str_elem (field_type field) ["text"; "email"; "tel"; "url"; "number"]
       || String.eqb (field_type field) "textarea"
    then if interactable (element field) Clear
         then if interactable (element field) (SendKeys data)
              then (Ok true, [Clear; SendKeys data]) else (Ok false, [Clear])
         else (Ok false, [])
    else if String.eqb (field_type field) "select"
    then match Spec.first_accepting_with lower data
                 (option_texts (element field)) with
         | Some i =>
             if is_select (element field)
                && interactable (element field) (SelectByIndex i)
             then (Ok true, [SelectByIndex i]) else (Ok false, [])
         | None => (Ok false, [])
         end
    else (Ok false, []).
Proof.
  intros H Hne. unfold _fill_field. rewrite H.
  destruct data as [|c s]; [congruence|].
  destruct (str_elem (field_type field) ["text"; "email"; "tel"; "url"; "number"]).
  - unfold _fill_input_field, clear, send_keys, act.
    destruct (interactable (element field) Clear);
      destruct (interactable (element field) (SendKeys (String c s)));
      reflexivity.
  - cbn [orb]. destruct (String.eqb (field_type field) "textarea").
    + unfold _fill_textarea_field, clear, send_keys, act.
      destruct (interactable (element field) Clear);
        destruct (interactable (element field) (SendKeys (String c s)));
        reflexivity.
    + destruct (String.eqb (field_type field) "select"); [|reflexivity].
      rewrite _fill_select_field_spec.
      destruct (Spec.first_accepting_with _ _ _) as [i|]; [|reflexivity].
      destruct (is_select (element field)
                && interactable (element field) (SelectByIndex i));
        reflexivity.
Qed.

(** Values come out of the table or are the three fallback values. *)
Lemma direct_mapping_lookup_In (items : list (string * string)) (ll v : string) :
  direct_mapping_lookup items ll = Some v -> In v (map snd items).
Proof.
  induction items as [|[k v'] items IH]; simpl; [discriminate|].
  destruct (str_in k ll); [|auto]. intros [= <-]. now left.
Qed.

Lemma dict_get_In {V} (d : list (string * V)) (k : string) (v : V) :
  dict_get d k = Some v -> In (k, v) d.
Proof.
  induction d as [|[k' v'] d IH]; simpl; [discriminate|].
  destruct (String.eqb k' k) eqn:E.
  - apply String.eqb_eq in E. intros [= <-]. subst. now left.
  - auto.
Qed.

Lemma scan_patterns_In (self : IntelligentFormFiller) (ll cat v : string)
    (patterns : list string) :
  scan_patterns self ll cat patterns = Some v ->
  In v (map snd (field_mappings self)).
Proof.
  induction patterns as [|p patterns IH]; simpl; [discriminate|].
  destruct (str_in p ll); [|exact IH].
  destruct (dict_get (field_mappings self) (mapping_key_of cat)) eqn:E;
    [|exact IH].
  intros [= <-]. apply dict_get_In in E.
  apply in_map_iff. now exists (mapping_key_of cat, s).
Qed.

Lemma pattern_matching_In (self : IntelligentFormFiller) (ll v : string)
    (items : list (string * list string)) :
  pattern_matching self items ll = Some v ->
  In v (map snd (field_mappings self)).
Proof.
  induction items as [|[cat ps] items IH]; simpl; [discriminate|].
  destruct (scan_patterns self ll cat ps) eqn:E; [|exact IH].
  intros [= <-]. eapply scan_patterns_In, E.
Qed.

Lemma special_cases_values (self : IntelligentFormFiller) (kind ll v : string) :
  special_cases self kind ll = Some v ->
  v = founder_email (founder (master_doc self))
  \/ v = founder_phone (founder (master_doc self))
  \/ v = company_website (company (master_doc self)).
Proof.
  unfold special_cases.
  repeat match goal with
         | |- context [if ?b then _ else _] => destruct b
         end; intros [= <-]; auto.
Qed.

Lemma _determine_field_data_profile (doc : MasterDocument) (field : FormField)
    (v : string) :
  _determine_field_data (init doc) field = Some v ->
  In v (map snd (_create_field_mappings doc)).
Proof.
  unfold _determine_field_data, determine_from.
  destruct (direct_mapping_lookup _ _) eqn:Ed.
  { intros [= <-]. eapply direct_mapping_lookup_In, Ed. }
  destruct (pattern_matching _ _ _) eqn:Ep.
  { intros [= <-]. eapply (pattern_matching_In (init doc)), Ep. }
  intros H. apply special_cases_values in H as [-> | [-> | ->]].
  - apply in_map_iff. exists ("email", founder_email (founder doc)).
    split; [reflexivity|]. cbn. tauto.
  - apply in_map_iff. exists ("phone", founder_phone (founder doc)).
    split; [reflexivity|]. cbn. tauto.
  - apply in_map_iff. exists ("website", company_website (company doc)).
    split; [reflexivity|]. cbn. tauto.
Qed.

(** The field types [_fill_field] has a branch for. *)
Lemma supported_field_types (ft : string) :
  str_elem ft ["text"; "email"; "tel"; "url"; "number"; "textarea"; "select"]
  = str_elem ft ["text"; "email"; "tel"; "url"; "number"]
    || String.eqb ft "textarea" || String.eqb ft "select".
Proof.
  unfold str_elem. cbn [existsb].
  now rewrite !orb_false_r, <- !orb_assoc.
Qed.

(** One way out of [_fill_field], with the answer and the calls known. *)
Ltac fill_field_case data :=
  cbn [fst snd];
  repeat match goal with
         | |- _ /\ _ => split
         | |- _ <-> _ => split
         end;
  try solve
    [ auto
    | discriminate
    | intros _; exists data; eauto 6
    | intros [? [_ [_ [H | [? H]]]]]; discriminate H
    | intros _; split; [reflexivity | exists data; auto]
    | intros [H | H]; [discriminate H | injection H as ->; congruence] ].

(** X1: [_fill_field] always answers, and it answers [True] exactly when
    every call it made on the element went through; it then made one of
    two call sequences: [clear()] followed by [send_keys] of the resolved,
    non-empty value, or one [select_by_index].  When it answers [False] it
    has touched nothing, or it has only cleared the field: [clear()] went
    through and [send_keys] raised.  Without a value to fill, and on a
    field type it does not know, it answers [False] and touches
    nothing. *)
Theorem fill_field_true_iff_acted (self : IntelligentFormFiller)
    (field : FormField) :
  let out := _fill_field self field in
  (fst out = Ok true \/ fst out = Ok false)
  /\ (fst out = Ok true <->
      exists data,
        _determine_field_data self field = Some data /\ data <> ""
        /\ (snd out = [Clear; SendKeys data]
            \/ exists i, snd out = [SelectByIndex i]))
  /\ (fst out = Ok false -> snd out = [] \/ snd out = [Clear])
  /\ (snd out = [Clear] ->
      interactable (element field) Clear = true
      /\ exists data,
           _determine_field_data self field = Some data
           /\ interactable (element field) (SendKeys data) = false)
  /\ (_determine_field_data self field = None
      \/ _determine_field_data self field = Some "" ->
      out = (Ok false, []))
  /\ (str_elem (field_type field)
        ["text"; "email"; "tel"; "url"; "number"; "textarea"; "select"]
      = false ->
      out = (Ok false, [])).
Proof.
  cbv zeta.
  assert (Hnone : _determine_field_data self field = None
                  \/ _determine_field_data self field = Some "" ->
                  _fill_field self field = (Ok false, []))
    by apply _fill_field_no_data.
  destruct (_determine_field_data self field) as [data|] eqn:E.
  2: { rewrite Hnone by auto. cbn.
       repeat split; auto; try discriminate.
       intros [data [Hd _]]. discriminate. }
  destruct (String.eqb data "") eqn:Ee.
  { apply String.eqb_eq in Ee. subst. rewrite Hnone by auto. cbn.
    repeat split; auto; try discriminate.
    intros [data [[= <-] [Hne _]]]. congruence. }
  apply String.eqb_neq in Ee. clear Hnone.
  rewrite (_fill_field_data self field data E Ee), supported_field_types.
  destruct (str_elem (field_type field) _ || String.eqb (field_type field) _);
    [|destruct (String.eqb (field_type field) "select")]; cbn [orb].
  - destruct (interactable (element field) Clear) eqn:Hc;
      [destruct (interactable (element field) (SendKeys data)) eqn:Hs|];
      fill_field_case data.
  - destruct (Spec.first_accepting_with lower data
                (option_texts (element field))) as [i|];
      [destruct (is_select (element field)
                 && interactable (element field) (SelectByIndex i))|];
      fill_field_case data.
  - fill_field_case data.
Qed.

Lemma fill_field_true_iff_acted_witness :
  _fill_field default_filler
    {| element := read_only_input; field_type := "text"; label := "Company" |}
  = (Ok false, [Clear])
  /\ interactable read_only_input Clear = true
  /\ exists data,
       _determine_field_data default_filler
         {| element := read_only_input; field_type := "text";
            label := "Company" |} = Some data
       /\ interactable read_only_input (SendKeys data) = false.
Proof.
  split; [reflexivity|].
  apply (proj1 (proj2 (proj2 (proj2
           (fill_field_true_iff_acted default_filler
              {| element := read_only_input; field_type := "text";
                 label := "Company" |}))))).
  reflexivity.
Defined.

(** X2: whatever [_fill_field] types into an element is a non-empty value
    of the profile table the filler was built from; it never types a label,
    a pattern or an empty string. *)
Theorem typed_data_from_profile (doc : MasterDocument) (field : FormField)
    (data : string) :
  In (SendKeys data) (snd (_fill_field (init doc) field)) ->
  data <> "" /\ In data (map snd (_create_field_mappings doc)).
Proof.
  destruct (_determine_field_data (init doc) field) as [v|] eqn:E.
  2: { rewrite _fill_field_no_data by auto. intros []. }
  destruct (String.eqb v "") eqn:Ee.
  { apply String.eqb_eq in Ee. subst.
    rewrite _fill_field_no_data by auto. intros []. }
  apply String.eqb_neq in Ee.
  rewrite (_fill_field_data (init doc) field v E Ee).
  assert (Hv : In v (map snd (_create_field_mappings doc)))
    by (eapply _determine_field_data_profile, E).
  repeat match goal with
         | |- context [if ?b then _ else _] => destruct b
         | |- context [match ?o with Some _ => _ | None => _ end] => destruct o
         end; cbn; intros H;
    repeat match goal with
           | H : _ \/ _ |- _ => destruct H
           | H : False |- _ => destruct H
           | H : SendKeys _ = SendKeys _ |- _ => injection H as <-
           | H : _ = SendKeys _ |- _ => discriminate H
           end; auto.
Qed.

Lemma typed_data_from_profile_witness :
  In (SendKeys "KamandaLabs")
     (snd (_fill_field default_filler (field_of "Company" "text")))
  /\ "KamandaLabs" <> ""
  /\ In "KamandaLabs" (map snd (_create_field_mappings default_master_document)).
Proof.
  assert (H : In (SendKeys "KamandaLabs")
                 (snd (_fill_field default_filler (field_of "Company" "text"))))
    by (vm_compute; auto).
  split; [exact H|].
  exact (typed_data_from_profile default_master_document
           (field_of "Company" "text") "KamandaLabs" H).
Defined.

End FillStepFacts.

(** * More about the label resolver *)

Section ResolverMoreFacts.
Import Py PyStr Driver FormFiller FormPage Fixtures Fixtures2.

(** A category whose name is its own mapping key and is in the table:
    the first pattern that occurs decides. *)
Lemma scan_patterns_any (self : IntelligentFormFiller) (ll cat v : string)
    (patterns : list string) :
  mapping_key_of cat = cat ->
  dict_get (field_mappings self) cat = Some v ->
  scan_patterns self ll cat patterns
  = if any_in patterns ll then Some v else None.
Proof.
  intros Hk Hv. unfold any_in.
  induction patterns as [|p patterns IH]; simpl; [reflexivity|].
  destruct (str_in p ll); [|exact IH].
  now rewrite Hk, Hv.
Qed.

Lemma pattern_matching_find (self : IntelligentFormFiller) (ll : string)
    (items : list (string * list string)) :
  Forall (fun cp => mapping_key_of (fst cp) = fst cp
                    /\ exists v, dict_get (field_mappings self) (fst cp) = Some v)
         items ->
  pattern_matching self items ll
  = match List.find (fun cp => any_in (snd cp) ll) items with
    | Some cp => dict_get (field_mappings self) (fst cp)
    | None => None
    end.
Proof.
  induction 1 as [|[cat ps] items [Hk [v Hv]] _ IH]; [reflexivity|].
  cbn [pattern_matching List.find fst snd] in *.
  rewrite (scan_patterns_any self ll cat v ps Hk Hv).
  destruct (any_in ps ll); [symmetry; exact Hv | exact IH].
Qed.

Lemma default_categories_are_keys (doc : MasterDocument) :
  Forall (fun cp => mapping_key_of (fst cp) = fst cp
                    /\ exists v, dict_get (field_mappings (init doc)) (fst cp)
                                 = Some v)
         default_field_patterns.
Proof.
  repeat constructor; cbn; eexists; reflexivity.
Qed.

Lemma no_pattern_occurs (doc : MasterDocument) (ll : string) :
  pattern_matching (init doc) default_field_patterns ll = None ->
  forall cat ps, In (cat, ps) default_field_patterns -> any_in ps ll = false.
Proof.
  intros H cat ps Hin.
  rewrite (pattern_matching_find _ _ _ (default_categories_are_keys doc)) in H.
  destruct (List.find _ default_field_patterns) as [cp|] eqn:E.
  - apply find_some in E as [Hcp _].
    pose proof (default_categories_are_keys doc) as Hall.
    rewrite List.Forall_forall in Hall.
    destruct (Hall cp Hcp) as [_ [v Hv]]. congruence.
  - exact (find_none _ _ E (cat, ps) Hin).
Qed.

(** X3: with the tables the filler builds for itself, a pattern that
    occurs in the label always yields a value: every category name is a
    key of the mapping table as it stands (the [_name] suffix is never
    added), so the category-pattern step returns the value of the first
    category, in table order, one of whose patterns occurs in the label,
    and returns nothing only when no pattern of any category occurs. *)
Theorem pattern_hit_always_resolves (doc : MasterDocument) (ll : string) :
  pattern_matching (init doc) default_field_patterns ll
  = match List.find (fun cp => any_in (snd cp) ll) default_field_patterns with
    | Some cp => dict_get (_create_field_mappings doc) (fst cp)
    | None => None
    end
  /\ Forall (fun cp => mapping_key_of (fst cp) = fst cp
                       /\ exists v, dict_get (_create_field_mappings doc) (fst cp)
                                    = Some v)
            default_field_patterns.
Proof.
  split; [|apply default_categories_are_keys].
  apply (pattern_matching_find (init doc)), default_categories_are_keys.
Qed.

(** X4: the special cases in full, for a label that no key and no pattern
    matches: field type [email] gives the founder's e-mail; type [tel], or
    a label that contains "tel", gives the founder's phone; type [url]
    gives the company website; every other field gets nothing.  The other
    label words the special cases test for are keys or patterns and cannot
    occur at this point. *)
Theorem unmatched_label_special_cases (doc : MasterDocument) (field : FormField) :
  let ll := lower (label field) in
  let kind := field_type field in
  Spec.matching_entries (init doc) ll = [] ->
  pattern_matching (init doc) default_field_patterns ll = None ->
  _determine_field_data (init doc) field
  = if String.eqb kind "email" then Some (founder_email (founder doc))
    else if String.eqb kind "tel" || str_in "tel" ll
    then Some (founder_phone (founder doc))
    else if String.eqb kind "url" then Some (company_website (company doc))
    else None.
Proof.
  intros ll kind Hd Hp.
  destruct (no_direct_match_words doc ll Hd) as [He [Hph Hm]].
  assert (Hw : str_in "website" ll = false).
  { apply (no_direct_match (init doc) ll "website"
             (company_website (company doc)) Hd). cbn. tauto. }
  assert (Hu : str_in "url" ll = false).
  { apply (no_direct_match (init doc) ll "url"
             (company_website (company doc)) Hd). cbn. tauto. }
  assert (Hweb : str_in "web" ll = false).
  { pose proof (no_pattern_occurs doc ll Hp "website"
                  ["website"; "url"; "web"; "site"]) as H.
    unfold any_in in H. cbn [existsb] in H. rewrite Hw, Hu in H.
    cbn [orb] in H. apply orb_false_iff in H as [H _]; [exact H|].
    cbn. tauto. }
  unfold _determine_field_data. fold ll kind.
  rewrite (determine_from_special (init doc) ll kind Hd Hp).
  unfold special_cases, any_in. cbn [existsb].
  rewrite He, Hph, Hm, Hw, Hu, Hweb. cbn [orb].
  rewrite !orb_false_r. reflexivity.
Qed.

Lemma unmatched_label_special_cases_witness :
  _determine_field_data default_filler (field_of "Hostel" "number")
  = Some (founder_phone default_founder)
  /\ _determine_field_data default_filler (field_of "Age" "number") = None.
Proof.
  split.
  - apply (unmatched_label_special_cases default_master_document
             (field_of "Hostel" "number")); reflexivity.
  - apply (unmatched_label_special_cases default_master_document
             (field_of "Age" "number")); reflexivity.
Defined.

(** ** Labels read off the page *)

Lemma lower_upper_ascii (c : ascii) : lower_ascii (upper_ascii c) = lower_ascii c.
Proof. destruct c as [[] [] [] [] [] [] [] []]; reflexivity. Qed.

Lemma lower_title_from (b : bool) (s : string) :
  lower (title_from b s) = lower s.
Proof.
  revert b. induction s as [|c s IH]; intros b; [reflexivity|].
  cbn [title_from lower]. rewrite IH.
  destruct b; now rewrite ?lower_ascii_idem, ?lower_upper_ascii.
Qed.

Lemma name_label (e : DomElement) (n : string) :
  unlabelled e -> attr_name e = Some n -> n <> "" ->
  _get_field_label e
  = title (replace_char "-" " " (replace_char "_" " " n)).
Proof.
  intros [Hl Hp] Hn Hne. unfold _get_field_label.
  rewrite Hl, Hp, Hn. destruct n; [congruence | reflexivity].
Qed.

(** X5: a label made from the [name] attribute resolves exactly as the
    name itself with "_" and "-" turned into blanks would: the title
    casing is undone by the lowercasing. *)
Theorem name_label_resolves_like_name (self : IntelligentFormFiller)
    (e : DomElement) (kind n : string) :
  unlabelled e -> attr_name e = Some n -> n <> "" ->
  _determine_field_data self (field_for kind e)
  = determine_from self
      (lower (replace_char "-" " " (replace_char "_" " " n))) kind.
Proof.
  intros Hu Hn Hne. unfold _determine_field_data, field_for.
  cbn [label field_type]. rewrite (name_label e n Hu Hn Hne).
  unfold title. now rewrite lower_title_from.
Qed.

Lemma name_label_resolves_like_name_witness :
  _determine_field_data default_filler (field_for "text" (named_input "use_of_funds"))
  = determine_from default_filler "use of funds" "text".
Proof.
  apply (name_label_resolves_like_name default_filler
           (named_input "use_of_funds") "text" "use_of_funds");
    [split; reflexivity | reflexivity | discriminate].
Defined.

(** Substrings of substrings. *)
Lemma string_app_assoc (a b c : string) :
  ((a ++ b) ++ c = a ++ (b ++ c))%string.
Proof.
  induction a as [|x a IH]; [reflexivity|].
  change (String x ((a ++ b) ++ c) = String x (a ++ (b ++ c)))%string.
  now f_equal.
Qed.

Lemma str_in_trans (a b c : string) :
  str_in a b = true -> str_in b c = true -> str_in a c = true.
Proof.
  rewrite !str_in_spec. intros [p1 [q1 H1]] [p2 [q2 H2]].
  exists (p2 ++ p1)%string, (q1 ++ q2)%string. subst.
  now rewrite !string_app_assoc.
Qed.

Lemma str_in_char_cons (x c : ascii) (s : string) :
  str_in (String x "") (String c s)
  = Ascii.eqb x c || str_in (String x "") s.
Proof.
  cbn [str_in String.prefix].
  destruct (Ascii.ascii_dec x c) as [->|Hne].
  - rewrite Ascii.eqb_refl. now destruct s.
  - apply Ascii.eqb_neq in Hne. now rewrite Hne.
Qed.

Lemma readable_char (b : bool) (c : ascii) :
  let c1 := if Ascii.eqb c "_" then " "%char else c in
  let c2 := if Ascii.eqb c1 "-" then " "%char else c1 in
  let c3 := lower_ascii (if b then lower_ascii c2 else upper_ascii c2) in
  Ascii.eqb "_" c3 = false /\ Ascii.eqb "-" c3 = false.
Proof.
  destruct b; destruct c as [[] [] [] [] [] [] [] []]; split; reflexivity.
Qed.

Lemma readable_name_no_separator (b : bool) (n : string) :
  let ll := lower (title_from b (replace_char "-" " " (replace_char "_" " " n))) in
  str_in "_" ll = false /\ str_in "-" ll = false.
Proof.
  revert b. induction n as [|c n IH]; intros b; [split; reflexivity|].
  cbn [replace_char title_from lower]. cbv zeta.
  rewrite !str_in_char_cons.
  destruct (readable_char b c) as [H1 H2]. cbv zeta in H1, H2.
  rewrite H1, H2. cbn [orb]. apply IH.
Qed.

(** X6: a label made from the [name] attribute contains neither "_" nor
    "-", so no key of the mapping table that is spelled with one of them
    can be the match: an input named exactly like such a key is resolved,
    if at all, by a shorter key or a pattern. *)
Theorem name_label_misses_compound_keys (self : IntelligentFormFiller)
    (e : DomElement) (n : string) (kv : string * string) :
  unlabelled e -> attr_name e = Some n -> n <> "" ->
  In kv (Spec.matching_entries self (lower (_get_field_label e))) ->
  str_in "_" (fst kv) = false /\ str_in "-" (fst kv) = false.
Proof.
  intros Hu Hn Hne Hin. rewrite (name_label e n Hu Hn Hne) in Hin.
  apply filter_In in Hin as [_ Hk]. unfold title in Hk.
  destruct (readable_name_no_separator false n) as [H1 H2]. cbv zeta in H1, H2.
  split.
  - destruct (str_in "_" (fst kv)) eqn:E; [|reflexivity].
    now rewrite (str_in_trans _ _ _ E Hk) in H1.
  - destruct (str_in "-" (fst kv)) eqn:E; [|reflexivity].
    now rewrite (str_in_trans _ _ _ E Hk) in H2.
Qed.

Lemma name_label_misses_compound_keys_witness :
  Spec.matching_entries default_filler
    (lower (_get_field_label (named_input "contact_email")))
  = [("email", founder_email default_founder)]
  /\ str_in "_" "email" = false /\ str_in "-" "email" = false
  /\ Spec.matching_entries default_filler
       (lower (_get_field_label (named_input "use_of_funds"))) = [].
Proof.
  split; [reflexivity|]. split; [|split; reflexivity].
  apply (name_label_misses_compound_keys default_filler
           (named_input "contact_email") "contact_email"
           ("email", founder_email default_founder));
    [split; reflexivity | reflexivity | discriminate | vm_compute; auto].
Defined.

(** X7: an element that offers no label, no placeholder and no name is
    given the label "Unknown Field", in which the pattern [field] of the
    category [industry] occurs: whatever its type, [email], [tel] and
    [url] included, it resolves to the company's industry. *)
Theorem unknown_field_gets_industry (doc : MasterDocument) (e : DomElement)
    (kind : string) :
  unlabelled e -> truthy (attr_name e) = false ->
  _get_field_label e = "Unknown Field"
  /\ _determine_field_data (init doc) (field_for kind e)
     = Some (company_industry (company doc)).
Proof.
  intros [Hl Hp] Hn.
  assert (H : _get_field_label e = "Unknown Field").
  { unfold _get_field_label. now rewrite Hl, Hp, Hn. }
  split; [exact H|].
  unfold _determine_field_data, field_for. cbn [label field_type].
  rewrite H. reflexivity.
Qed.

Lemma unknown_field_gets_industry_witness :
  _get_field_label (bare_input "email") = "Unknown Field"
  /\ _determine_field_data default_filler (field_for "email" (bare_input "email"))
     = Some (company_industry default_company).
Proof.
  apply (unknown_field_gets_industry default_master_document
           (bare_input "email") "email");
    [split; reflexivity | reflexivity].
Defined.

End ResolverMoreFacts.

(** * Forms *)

Section FormFacts.
Import Py PyStr Driver FormFiller FormPage Fixtures Fixtures2.

Lemma _fill_field_returns (self : IntelligentFormFiller) (field : FormField) :
  exists b, fst (_fill_field self field) = Ok b.
Proof.
  destruct (try_except_returns
              (match _determine_field_data self field with
               | None | Some EmptyString => ret false
               | Some field_data =>
                   if str_elem (field_type field)
                        ["text"; "email"; "tel"; "url"; "number"]
                   then _fill_input_field (element field) field_data ;; ret true
                   else if String.eqb (field_type field) "textarea"
                   then _fill_textarea_field (element field) field_data ;; ret true
                   else if String.eqb (field_type field) "select"
                   then _fill_select_field (element field) field_data
                   else ret false
               end)) as [b [w H]].
  exists b. unfold _fill_field. now rewrite H.
Qed.

(** The loop counts the fields that were filled and records no error. *)
Lemma fill_fields_spec (self : IntelligentFormFiller) (fields : list FormField)
    (n : nat) (errors : list fill_error) :
  fill_fields self fields n errors
  = (n + List.length (List.filter (filled self) fields), errors).
Proof.
  revert n. induction fields as [|f fields IH]; intros n; cbn [fill_fields].
  - cbn. now rewrite Nat.add_0_r.
  - cbn [List.filter]. unfold filled at 1.
    destruct (_fill_field_returns self f) as [b Hb]. rewrite Hb.
    destruct b; rewrite IH; cbn [List.length]; f_equal; lia.
Qed.

Lemma filter_length_le {A} (f : A -> bool) (l : list A) :
  List.length (List.filter f l) <= List.length l.
Proof.
  induction l as [|x l IH]; simpl; [lia|].
  destruct (f x); simpl; lia.
Qed.

(** X8: the fields [_extract_form_fields] returns are the inputs of the
    five text-like types (an input without [type] counts as [text]), then
    the textareas, then the selects; every one of them has a type that
    [_fill_field] has a branch for. *)
Theorem extracted_fields_supported (form : Form) :
  Forall (fun f => str_elem (field_type f)
                     ["text"; "email"; "tel"; "url"; "number";
                      "textarea"; "select"] = true)
         (_extract_form_fields form)
  /\ List.length (_extract_form_fields form)
     = List.length (List.filter
                      (fun e => str_elem (input_type_of e) input_types)
                      (inputs form))
       + List.length (textareas form) + List.length (selects form)
  /\ (forall e, truthy (attr_type e) = false -> input_type_of e = "text").
Proof.
  split; [|split].
  - unfold _extract_form_fields. rewrite !Forall_app. split; [|split].
    + rewrite List.Forall_forall. intros f Hin.
      apply in_map_iff in Hin as [e [<- He]].
      apply filter_In in He as [_ He]. cbn [field_type field_for].
      unfold input_types in He. unfold str_elem in *.
      cbn [existsb] in *.
      repeat (apply orb_true_iff in He as [He|He];
              [rewrite He; now rewrite ?orb_true_r|]).
      discriminate.
    + rewrite List.Forall_forall. intros f Hin.
      apply in_map_iff in Hin as [e [<- _]]. reflexivity.
    + rewrite List.Forall_forall. intros f Hin.
      apply in_map_iff in Hin as [e [<- _]]. reflexivity.
  - unfold _extract_form_fields.
    rewrite !length_app, !length_map. lia.
  - intros e H. unfold input_type_of. now rewrite H.
Qed.

Lemma extracted_fields_supported_witness :
  input_type_of
    {| handle := Fixtures.text_input; attr_type := None; attr_id := None;
       label_for := None; attr_placeholder := None; attr_name := None |}
  = "text".
Proof.
  apply (proj2 (proj2 (extracted_fields_supported
                         {| inputs := []; textareas := []; selects := [];
                            submits := false |}))).
  reflexivity.
Defined.

(** X9: the result of [fill_form] adds up.  [fields_filled] never exceeds
    [total_fields]; [success] says that at least one field was filled; the
    form is submitted only when that was asked for, a field was filled and
    the submit step went through; and the only errors ever recorded are
    the two page-level ones, one at most, with nothing filled beside it.
    No error of a single field is recorded. *)
Theorem fill_form_accounting (self : IntelligentFormFiller) (page : Page)
    (form_url : string) (submit : bool) :
  let r := fill_form self page form_url submit in
  r_fields_filled r <= r_total_fields r
  /\ r_success r = Nat.ltb 0 (r_fields_filled r)
  /\ (r_submitted r = true -> submit = true /\ r_success r = true)
  /\ (r_errors r = []
      \/ (r_fields_filled r = 0
          /\ (r_errors r = [NoFormsFound]
              \/ exists message, r_errors r = [GeneralError message]))).
Proof.
  unfold fill_form.
  destruct (load_error page) as [message|].
  { cbn. repeat split; try lia; try discriminate. right. eauto. }
  destruct (forms page) as [|form rest].
  { cbn. repeat split; try lia; try discriminate. right. eauto. }
  rewrite fill_fields_spec. cbn [Nat.add r_fields_filled r_total_fields
    r_success r_submitted r_errors].
  split; [apply filter_length_le|]. split; [reflexivity|]. split; [|now left].
  destruct submit; cbn [andb]; [|discriminate].
  destruct (Nat.ltb 0 _); [auto | discriminate].
Qed.

Lemma fill_form_accounting_witness :
  r_submitted
    (fill_form default_filler
       {| load_error := None;
          forms := [ {| inputs := [named_input "email"]; textareas := [];
                        selects := []; submits := true |} ] |}
       "https://example.com/grant-form" true) = true
  /\ true = true
  /\ r_success
       (fill_form default_filler
          {| load_error := None;
             forms := [ {| inputs := [named_input "email"]; textareas := [];
                           selects := []; submits := true |} ] |}
          "https://example.com/grant-form" true) = true.
Proof.
  assert (H : r_submitted
    (fill_form default_filler
       {| load_error := None;
          forms := [ {| inputs := [named_input "email"]; textareas := [];
                        selects := []; submits := true |} ] |}
       "https://example.com/grant-form" true) = true) by reflexivity.
  split; [exact H|].
  exact (proj1 (proj2 (proj2 (fill_form_accounting default_filler _ _ _))) H).
Defined.

(** X10: on a page that loads and has a form, [fill_form] works on the
    first form only: [total_fields] is the number of its extracted fields
    and [fields_filled] the number of those on which [_fill_field]
    answered [True]; it is submitted exactly when asked for, something was
    filled and the submit step goes through. *)
Theorem fill_form_first_form (self : IntelligentFormFiller) (form : Form)
    (others : list Form) (form_url : string) (submit : bool) :
  let r := fill_form self {| load_error := None; forms := form :: others |}
             form_url submit in
  r_total_fields r = List.length (_extract_form_fields form)
  /\ r_fields_filled r
     = List.length (List.filter (filled self) (_extract_form_fields form))
  /\ r_submitted r
     = submit && Nat.ltb 0 (r_fields_filled r) && submits form
  /\ r_errors r = [].
Proof.
  unfold fill_form. cbn [load_error forms]. rewrite fill_fields_spec.
  cbn [Nat.add r_fields_filled r_total_fields r_success r_submitted r_errors].
  repeat split.
Qed.

Lemma fill_forms_spec (doc : MasterDocument) (web : string -> Page)
    (opps : list Scraper.Opportunity) (submit : bool) :
  fill_forms doc web opps submit
  = map (fun o => set_opportunity
                    (fill_form (init doc) (web (Scraper.url o))
                       (Scraper.url o) submit) o)
        (List.filter (fun o => negb (String.eqb (Scraper.url o) "")) opps).
Proof.
  induction opps as [|o opps IH]; [reflexivity|].
  cbn [fill_forms List.filter].
  destruct (String.eqb (Scraper.url o) ""); cbn [negb]; [exact IH|].
  cbn [map]. now rewrite IH.
Qed.

(** X11: [fill_forms] gives one result per opportunity that has a URL, in
    the order of the input, each carrying its opportunity and its URL;
    opportunities without a URL are passed over without a result; and
    when [submit] is off no result says [submitted]. *)
Theorem fill_forms_one_result_per_url (doc : MasterDocument)
    (web : string -> Page) (opps : list Scraper.Opportunity) (submit : bool) :
  let results := fill_forms doc web opps submit in
  map r_opportunity results
  = map Some (List.filter (fun o => negb (String.eqb (Scraper.url o) "")) opps)
  /\ Forall (fun r => Some (r_url r) = option_map Scraper.url (r_opportunity r))
            results
  /\ (submit = false -> Forall (fun r => r_submitted r = false) results).
Proof.
  cbv zeta. rewrite fill_forms_spec. split; [|split].
  - rewrite map_map. apply map_ext. reflexivity.
  - rewrite List.Forall_forall. intros r Hin.
    apply in_map_iff in Hin as [o [<- _]].
    unfold set_opportunity, fill_form. cbn [r_opportunity option_map].
    destruct (load_error _); [reflexivity|].
    destruct (forms _); [reflexivity|].
    now destruct (fill_fields _ _ _ _).
  - intros ->. rewrite List.Forall_forall. intros r Hin.
    apply in_map_iff in Hin as [o [<- _]].
    unfold set_opportunity, fill_form. cbn [r_submitted].
    destruct (load_error _); [reflexivity|].
    destruct (forms _); [reflexivity|].
    now destruct (fill_fields _ _ _ _).
Qed.

Lemma fill_forms_one_result_per_url_witness :
  Forall (fun r => r_submitted r = false)
         (fill_forms default_master_document
            (fun _ => {| load_error := Some "timeout"; forms := [] |})
            [ {| Scraper.title := "Test Grant Application";
                 Scraper.url := "https://example.com/grant-form";
                 Scraper.description := ""; Scraper.deadline := "";
                 Scraper.funding_amount := ""; Scraper.eligibility := "";
                 Scraper.source := "Test"; Scraper.discovered_at := "" |} ]
            false).
Proof.
  apply (proj2 (proj2 (fill_forms_one_result_per_url default_master_document
                         _ _ false))).
  reflexivity.
Defined.

End FormFacts.

(** * More about the ranker *)

Section RankerMoreFacts.
Import Py Grant GrantData Fixtures.
Local Open Scope Z_scope.
Local Set Warnings "-clear-no-such-hyp".

Lemma overlap_mono (K : gset string) (o1 o2 : Opportunity) :
  focus_set o1 ⊆ focus_set o2 -> (overlap K o1 <= overlap K o2)%nat.
Proof.
  intros H. unfold overlap. apply subseteq_size. set_solver.
Qed.

(** X12: the score grows with the tags and is capped: an opportunity whose
    lowercased tags include those of another scores at least as much, and
    never more than 10.  Case, order and repetition of the tags do not
    matter: equal sets of lowercased tags give equal scores. *)
Theorem score_monotone_in_tags (K : gset string) (o1 o2 : Opportunity) :
  (focus_set o1 ⊆ focus_set o2 -> score K o1 <= score K o2 <= 10)
  /\ (focus_set o1 = focus_set o2 -> score K o1 = score K o2).
Proof.
  split.
  - intros H. apply (overlap_mono K) in H. unfold score. lia.
  - intros H. unfold score, overlap. now rewrite H.
Qed.

Lemma score_monotone_in_tags_witness :
  score keywords (opportunity "a" (Some ["Africa"]))
  <= score keywords (opportunity "b" (Some ["AFRICA"; "Energy"; "africa"])) <= 10
  /\ score keywords (opportunity "a" (Some ["Africa"]))
     = score keywords (opportunity "c" (Some ["AFRICA"; "africa"])).
Proof.
  split.
  - apply (proj1 (score_monotone_in_tags keywords
                    (opportunity "a" (Some ["Africa"]))
                    (opportunity "b" (Some ["AFRICA"; "Energy"; "africa"])))).
    apply (bool_decide_unpack _). vm_compute. exact I.
  - apply (proj2 (score_monotone_in_tags keywords
                    (opportunity "a" (Some ["Africa"]))
                    (opportunity "c" (Some ["AFRICA"; "africa"])))).
    apply (bool_decide_unpack _). vm_compute. exact I.
Defined.

(** X13: a tag counts only when, lowercased, it is a keyword: the score is
    the base score 2 exactly when no keyword is among the lowercased tags,
    however many tags merely contain one.  "Climate Innovation" does not
    count for [climate]. *)
Theorem score_base_iff_no_keyword_tag (K : gset string) (opp : Opportunity) :
  (score K opp = 2 -> K ∩ focus_set opp = ∅)
  /\ (K ∩ focus_set opp = ∅ -> score K opp = 2)
  /\ score keywords
       (opportunity "UNDP-AFCIA (Climate Innovation)"
          (Some ["Climate Innovation"; "Development"])) = 2.
Proof.
  split; [|split; [|vm_compute; reflexivity]].
  - intros H. unfold score, overlap in H. apply leibniz_equiv.
    apply size_empty_inv. lia.
  - intros H. unfold score, overlap. rewrite H, size_empty. reflexivity.
Qed.

Lemma score_base_iff_no_keyword_tag_witness :
  keywords ∩ focus_set (opportunity "x" (Some ["Early Stage"])) = ∅
  /\ score keywords (opportunity "y" (Some ["Climate Resilience"])) = 2.
Proof.
  split.
  - apply (proj1 (score_base_iff_no_keyword_tag keywords
                    (opportunity "x" (Some ["Early Stage"])))).
    vm_compute. reflexivity.
  - apply (proj1 (proj2 (score_base_iff_no_keyword_tag keywords
                           (opportunity "y" (Some ["Climate Resilience"]))))).
    apply (bool_decide_unpack _). vm_compute. exact I.
Defined.

Lemma without_score_enrich (K : gset string) (opp : Opportunity) :
  without_score (enrich K opp) = without_score opp.
Proof. reflexivity. Qed.

(** X14: the ranker writes [relevance_score] and nothing else: with the
    scores left out, what it returns is a rearrangement of what it was
    given; no record is dropped, added or edited. *)
Theorem rank_touches_only_score (opps : list Opportunity) :
  Permutation (map without_score (filter_opportunities_by_relevance opps))
              (map without_score opps)
  /\ List.length (filter_opportunities_by_relevance opps) = List.length opps.
Proof.
  assert (H : Permutation (filter_opportunities_by_relevance opps)
                          (map (enrich keywords) opps))
    by apply sorted_reverse_perm.
  split.
  - rewrite (Permutation_map without_score H), map_map.
    erewrite map_ext; [reflexivity|]. intros o. apply without_score_enrich.
  - rewrite (Permutation_length H). apply length_map.
Qed.

End RankerMoreFacts.

(** * Reading the master data *)

Section MasterDataFacts.
Import Py GrantData Fixtures2.

Lemma traverse_empty_dict (path : list string) :
  traverse (JDict []) path = Value (JDict []).
Proof. induction path as [|k path IH]; [reflexivity | exact IH]. Qed.

Lemma traverse_app (d v : json) (p q : list string) :
  traverse d p = Value v -> traverse d (p ++ q) = traverse v q.
Proof.
  revert d. induction p as [|k p IH]; intros d; cbn [traverse app].
  - now intros [= ->].
  - destruct d; try discriminate. apply IH.
Qed.

(** X15: a key that is missing from a dict on the way gives [None]
    whatever the rest of the path is, and so does a path that ends on an
    empty dict: [get_value] cannot tell the two apart. *)
Theorem get_value_missing_key (items : list (string * json)) (key : string)
    (rest : list string) :
  (dict_get items key = None ->
   get_value (JDict items) (key :: rest) = Value JNull)
  /\ (dict_get items key = Some (JDict []) ->
      get_value (JDict items) (key :: rest) = Value JNull).
Proof.
  unfold get_value. cbn [traverse].
  split; intros ->; cbn [default]; now rewrite traverse_empty_dict.
Qed.

Lemma get_value_missing_key_witness :
  get_value sample_master_data ["financials"; "funding_sought"] = Value JNull
  /\ get_value sample_master_data ["urls"; "pitch_deck"] = Value JNull.
Proof.
  split.
  - apply (proj1 (get_value_missing_key _ "financials" ["funding_sought"])).
    reflexivity.
  - apply (proj2 (get_value_missing_key _ "urls" ["pitch_deck"])).
    reflexivity.
Defined.

(** X16: once the path has reached a value that is not a dict (a string,
    a number, a list, null), asking for any further key raises
    [AttributeError]; it does not give [None]. *)
Theorem get_value_past_leaf_raises (master_data v : json)
    (p : list string) (key : string) (rest : list string) :
  traverse master_data p = Value v -> is_dict v = false ->
  get_value master_data (p ++ key :: rest) = Raises AttributeError.
Proof.
  intros Hp Hd. unfold get_value. rewrite (traverse_app _ _ _ _ Hp).
  destruct v; try discriminate; reflexivity.
Qed.

Lemma get_value_past_leaf_raises_witness :
  get_value sample_master_data (["founder"] ++ "name" :: [])
  = Raises AttributeError.
Proof.
  apply (get_value_past_leaf_raises sample_master_data
           (JStr "Kamanda Collins") ["founder"] "name" []);
    reflexivity.
Defined.

(** X17: the paths of [create_field_mappings] are one or two keys long,
    so on master data that is a dict whose sections [company_info],
    [founder], [financials] and [urls], where present, are dicts,
    [get_value] returns for every mapped path. *)
Theorem mapped_paths_return (items : list (string * json)) :
  Forall (fun section =>
            match dict_get items section with
            | Some v => is_dict v = true
            | None => True
            end)
         ["company_info"; "founder"; "financials"; "urls"] ->
  Forall (fun entry => exists v, get_value (JDict items) (snd entry) = Value v)
         create_field_mappings.
Proof.
  intros H.
  assert (H2 : forall section key,
             In section ["company_info"; "founder"; "financials"; "urls"] ->
             exists v, get_value (JDict items) [section; key] = Value v).
  { intros section key Hin. rewrite List.Forall_forall in H.
    specialize (H section Hin). unfold get_value. cbn [traverse].
    destruct (dict_get items section) as [v|]; cbn [default].
    - destruct v; try discriminate. eauto.
    - eauto. }
  assert (H1 : forall key, exists v, get_value (JDict items) [key] = Value v).
  { intros key. unfold get_value. cbn [traverse]. eauto. }
  unfold create_field_mappings.
  repeat constructor; cbn [snd];
    first [apply H1 | apply H2; cbn; tauto].
Qed.

Lemma mapped_paths_return_witness :
  Forall (fun entry =>
            exists v,
              get_value (JDict [("company_info", JDict [("name", JStr "KamandaLabs")])])
                (snd entry) = Value v)
         create_field_mappings.
Proof.
  apply (mapped_paths_return [("company_info", JDict [("name", JStr "KamandaLabs")])]).
  repeat constructor.
Defined.

End MasterDataFacts.

(** * Cleaning a label in [fill_form_field] *)

Section LabelCleanFacts.
Import Py PyStr Grant GrantData.

Lemma clean_char_lower (c : ascii) : clean_char (lower_ascii c) = clean_char c.
Proof. destruct c as [[] [] [] [] [] [] [] []]; reflexivity. Qed.

Lemma lower_ascii_not_upper (c : ascii) : is_upper (lower_ascii c) = false.
Proof. destruct c as [[] [] [] [] [] [] [] []]; reflexivity. Qed.

Lemma keep_chars_lower (s : string) :
  lower (keep_chars clean_char s) = keep_chars clean_char (lower s).
Proof.
  induction s as [|c s IH]; [reflexivity|].
  cbn [keep_chars lower]. rewrite clean_char_lower.
  destruct (clean_char c); cbn [lower]; now rewrite IH.
Qed.

Lemma keep_chars_idem (p : ascii -> bool) (s : string) :
  keep_chars p (keep_chars p s) = keep_chars p s.
Proof.
  induction s as [|c s IH]; [reflexivity|]. cbn [keep_chars].
  destruct (p c) eqn:E; [|exact IH]. cbn [keep_chars]. now rewrite E, IH.
Qed.

Lemma keep_chars_length (p : ascii -> bool) (s : string) :
  String.length (keep_chars p s) <= String.length s.
Proof.
  induction s as [|c s IH]; [reflexivity|]. cbn [keep_chars].
  destruct (p c); cbn [String.length]; lia.
Qed.

Lemma label_clean_chars (s : string) :
  all_chars (fun c => clean_char c && negb (is_upper c))
            (keep_chars clean_char (lower s)) = true.
Proof.
  induction s as [|c s IH]; [reflexivity|]. cbn [lower keep_chars].
  destruct (clean_char (lower_ascii c)) eqn:E; [|exact IH].
  cbn [all_chars]. now rewrite E, lower_ascii_not_upper, IH.
Qed.

Lemma is_ascii_lower (c : ascii) : is_ascii (lower_ascii c) = is_ascii c.
Proof. destruct c as [[] [] [] [] [] [] [] []]; reflexivity. Qed.

Lemma all_chars_lower_ascii (s : string) :
  all_chars is_ascii (lower s) = all_chars is_ascii s.
Proof.
  induction s as [|c s IH]; [reflexivity|].
  cbn [lower all_chars]. now rewrite is_ascii_lower, IH.
Qed.

Lemma all_chars_keep_chars (p q : ascii -> bool) (s : string) :
  all_chars p s = true -> all_chars p (keep_chars q s) = true.
Proof.
  induction s as [|c s IH]; [reflexivity|]. cbn [all_chars keep_chars].
  intros H. apply andb_prop in H as [Hc Hs].
  destruct (q c); [|auto]. cbn [all_chars]. now rewrite Hc, IH.
Qed.

(** X18: on an ASCII label, [label_clean] is made of lowercase letters,
    digits, "_" and whitespace only, all of them ASCII; cleaning a cleaned
    label changes nothing; and cleaning never makes a label longer. *)
Theorem label_clean_normal_form (label : string) :
  all_chars is_ascii label = true ->
  all_chars (fun c => (is_word c || is_space c) && negb (is_upper c))
            (label_clean label) = true
  /\ all_chars is_ascii (label_clean label) = true
  /\ label_clean (label_clean label) = label_clean label
  /\ String.length (label_clean label) <= String.length label.
Proof.
  intros Hascii. split; [|split; [|split]].
  - apply label_clean_chars.
  - unfold label_clean. apply all_chars_keep_chars.
    now rewrite all_chars_lower_ascii.
  - unfold label_clean. fold clean_char.
    now rewrite keep_chars_lower, lower_idem, keep_chars_idem.
  - unfold label_clean. rewrite <- (lower_length label).
    apply keep_chars_length.
Qed.

Lemma label_clean_normal_form_witness :
  all_chars is_ascii "E-mail  Address *" = true
  /\ label_clean "E-mail  Address *" = "email  address "
  /\ label_clean (label_clean "E-mail  Address *")
     = label_clean "E-mail  Address *".
Proof.
  split; [reflexivity|]. split; [reflexivity|].
  exact (proj1 (proj2 (proj2
           (label_clean_normal_form "E-mail  Address *" eq_refl)))).
Defined.

End LabelCleanFacts.

(** * The scraper's keyword filter *)

Section ScraperFacts.
Import Py PyStr Scraper Fixtures2.

Lemma _filter_opportunities_In (opps : list Opportunity) (keywords : list string)
    (opp : Opportunity) :
  In opp (_filter_opportunities opps keywords) <->
  In opp opps /\ (keywords = [] \/ mentions keywords opp = true
                  \/ reputable opp = true).
Proof.
  unfold _filter_opportunities, mentions, reputable.
  destruct keywords as [|k keywords].
  - split; [intros H; auto | intros [H _]; exact H].
  - rewrite filter_In, orb_true_iff. split.
    + intros [H1 H2]. auto.
    + intros [H1 [H2|H2]]; [discriminate | auto].
Qed.

Lemma any_in_app (a b : list string) (s : string) :
  any_in (a ++ b) s = any_in a s || any_in b s.
Proof. unfold any_in. apply existsb_app. Qed.

(** X19: opportunities whose source is "Y Combinator" or "Techstars" pass
    the filter whatever the keywords are; and an empty keyword, which
    occurs in every text, lets everything pass. *)
Theorem filter_keeps_reputable_sources (opps : list Opportunity)
    (keywords : list string) :
  (forall opp, In opp opps ->
               source opp = "Y Combinator" \/ source opp = "Techstars" ->
               In opp (_filter_opportunities opps keywords))
  /\ (In "" keywords -> _filter_opportunities opps keywords = opps).
Proof.
  split.
  - intros opp Hin Hs. apply _filter_opportunities_In. split; [exact Hin|].
    right. right. unfold reputable. destruct Hs as [-> | ->]; reflexivity.
  - intros Hin. unfold _filter_opportunities.
    destruct keywords as [|k keywords]; [reflexivity|].
    apply forallb_filter_id, forallb_forall. intros opp _.
    apply orb_true_iff. left. unfold any_in. apply existsb_exists.
    exists "". split; [|apply str_in_empty].
    apply in_map_iff. exists "". split; [reflexivity | exact Hin].
Qed.

Lemma filter_keeps_reputable_sources_witness :
  In (program "Summer batch" "Y Combinator")
     (_filter_opportunities [program "Summer batch" "Y Combinator"] ["mining"])
  /\ _filter_opportunities [program "Seed fund" "SBIR"] ["tech"; ""]
     = [program "Seed fund" "SBIR"].
Proof.
  split.
  - apply (proj1 (filter_keeps_reputable_sources
                    [program "Summer batch" "Y Combinator"] ["mining"]));
      [cbn; auto | left; reflexivity].
  - apply (proj2 (filter_keeps_reputable_sources _ ["tech"; ""])).
    cbn. tauto.
Defined.

(** X20: with at least one keyword given, more keywords never filter out
    more: whatever passes for a list of keywords passes for any longer
    one.  The empty list is the exception the other way round: it stands
    for no filter at all, so everything that passes for some keywords
    passes for none. *)
Theorem filter_monotone_in_keywords (opps : list Opportunity)
    (keywords more : list string) (opp : Opportunity) :
  (keywords <> [] ->
   In opp (_filter_opportunities opps keywords) ->
   In opp (_filter_opportunities opps (keywords ++ more)))
  /\ (In opp (_filter_opportunities opps keywords) ->
      In opp (_filter_opportunities opps [])).
Proof.
  split.
  - intros Hne. rewrite !_filter_opportunities_In.
    intros [Hin [H|[H|H]]]; [congruence | |auto].
    split; [exact Hin|]. right. left.
    unfold mentions in *. rewrite map_app, any_in_app, H. reflexivity.
  - rewrite !_filter_opportunities_In. intros [Hin _]. auto.
Qed.

Lemma filter_monotone_in_keywords_witness :
  In (program "Climate tech grant" "Grants.gov")
     (_filter_opportunities [program "Climate tech grant" "Grants.gov"]
        (["TECH"] ++ ["mining"]))
  /\ In (program "Climate tech grant" "Grants.gov")
        (_filter_opportunities [program "Climate tech grant" "Grants.gov"] []).
Proof.
  assert (H : In (program "Climate tech grant" "Grants.gov")
                 (_filter_opportunities
                    [program "Climate tech grant" "Grants.gov"] ["TECH"]))
    by (vm_compute; auto).
  split.
  - apply (proj1 (filter_monotone_in_keywords _ ["TECH"] ["mining"] _));
      [discriminate | exact H].
  - exact (proj2 (filter_monotone_in_keywords _ ["TECH"] [] _) H).
Defined.

(** X21: [discover_opportunities] returns at most [max_results] results
    when that number is not negative, the first ones of the filtered
    list; a negative number does not give an empty list but cuts that
    many results off the end; and a browser that cannot be set up gives
    the empty list. *)
Theorem discover_respects_limit (scraped : list Opportunity)
    (keywords : option (list string)) (max_results : Z) :
  let filtered :=
    _filter_opportunities scraped (default default_keywords keywords) in
  let found := discover_opportunities (Some scraped) keywords max_results in
  ((0 <= max_results)%Z ->
     found = firstn (Z.to_nat max_results) filtered
     /\ (Z.of_nat (List.length found) <= max_results)%Z)
  /\ ((max_results < 0)%Z ->
      List.length found
      = List.length filtered - Z.to_nat (- max_results))
  /\ discover_opportunities None keywords max_results = [].
Proof.
  cbv zeta. unfold discover_opportunities, discover_from, slice_to.
  split; [|split; [|reflexivity]].
  - intros H. destruct (Z.leb_spec 0 max_results); [|lia].
    split; [reflexivity|]. rewrite length_firstn. lia.
  - intros H. destruct (Z.leb_spec 0 max_results); [lia|].
    rewrite length_firstn. lia.
Qed.

Lemma discover_respects_limit_witness :
  List.length
    (discover_opportunities
       (Some [program "A" "Techstars"; program "B" "Y Combinator"]) None (-1))
  = 1
  /\ (Z.of_nat
        (List.length
           (discover_opportunities
              (Some [program "A" "Techstars"; program "B" "Y Combinator"])
              None 1))
      <= 1)%Z.
Proof.
  split.
  - exact (proj1 (proj2 (discover_respects_limit
                           [program "A" "Techstars"; program "B" "Y Combinator"]
                           None (-1)))
             eq_refl).
  - apply (proj1 (discover_respects_limit
                    [program "A" "Techstars"; program "B" "Y Combinator"]
                    None 1)).
    lia.
Defined.

End ScraperFacts.

(** * The activity log *)

Section LogFacts.
Import Py PyStr GrantData Logs.
Local Open Scope Z_scope.

Lemma slice_last_snoc {A} (l : list A) (x : A) (n : nat) :
  slice_last (l ++ [x]) (S n) = slice_last l n ++ [x].
Proof.
  unfold slice_last. rewrite length_app. cbn [List.length].
  replace (List.length l + 1 - S n)%nat with (List.length l - n)%nat by lia.
  rewrite skipn_app.
  replace (List.length l - n - List.length l)%nat with 0%nat by lia.
  reflexivity.
Qed.

Lemma slice_last_length {A} (l : list A) (n : nat) :
  List.length (slice_last l n) = Nat.min (List.length l) n.
Proof. unfold slice_last. rewrite length_skipn. lia. Qed.

(** X22: the activity log never holds more than 1000 entries: what is
    written back is the last 999 entries that were there, in their
    order, followed by the new one.  A log that cannot be read is
    replaced by the new entry alone. *)
Theorem log_activity_keeps_last_1000 (existing : option (list Activity))
    (now activity_type : string) (data : list (string * json)) :
  let activity := {| timestamp := now; type := activity_type; data := data |} in
  let stored := log_activity existing now activity_type data in
  stored = slice_last (default [] existing) 999 ++ [activity]
  /\ List.length stored
     = Nat.min 1000 (List.length (default [] existing) + 1)
  /\ (List.length stored <= 1000)%nat
  /\ (existing = None -> stored = [activity]).
Proof.
  cbv zeta. unfold log_activity.
  rewrite (slice_last_snoc _ _ 999).
  split; [reflexivity|]. split; [|split].
  - rewrite length_app, slice_last_length. cbn [List.length]. lia.
  - rewrite length_app, slice_last_length. cbn [List.length]. lia.
  - intros ->. reflexivity.
Qed.

Lemma log_activity_keeps_last_1000_witness :
  log_activity None "2025-08-01T10:00:00" "application_start" []
  = [ {| timestamp := "2025-08-01T10:00:00"; type := "application_start";
         data := [] |} ].
Proof.
  apply (proj2 (proj2 (proj2 (log_activity_keeps_last_1000 None
           "2025-08-01T10:00:00" "application_start" [])))).
  reflexivity.
Defined.

Lemma count_activity_step (s s' : Statistics) (a : Activity) :
  count_activity s a = Value s' ->
  forms_filled_successfully s' + forms_filled_failed s'
  = forms_filled_successfully s + forms_filled_failed s
    + is_type "form_filling_result" a
  /\ submissions_successful s' + submissions_failed s'
     = submissions_successful s + submissions_failed s
       + (if String.eqb (type a) "submission_result" && negb (dry_run_pass a)
          then 1 else 0)
  /\ errors_count s' = errors_count s + is_type "error" a
  /\ (is_type "opportunity_discovery" a = 0
      -> total_opportunities_discovered s' = total_opportunities_discovered s).
Proof.
  unfold count_activity, is_type, dry_run_pass.
  destruct (String.eqb (type a) "opportunity_discovery") eqn:E1.
  { apply String.eqb_eq in E1. rewrite E1. cbn.
    destruct (add_count _ _); [|discriminate]. intros [= <-]. cbn.
    repeat split; lia. }
  destruct (String.eqb (type a) "form_filling_result") eqn:E2.
  { apply String.eqb_eq in E2. rewrite E2. cbn.
    destruct (flag _ _ _); intros [= <-]; cbn; repeat split; lia. }
  destruct (String.eqb (type a) "submission_result") eqn:E3.
  { apply String.eqb_eq in E3. rewrite E3. cbn.
    destruct (flag (data a) "submitted" false), (flag (data a) "dry_run" true);
      cbn; intros [= <-]; cbn; repeat split; lia. }
  destruct (String.eqb (type a) "error") eqn:E4.
  { intros [= <-]; cbn; repeat split; lia. }
  intros [= <-]. cbn. repeat split; lia.
Qed.

Lemma of_type_length_cons (t : string) (a : Activity) (l : list Activity) :
  Z.of_nat (List.length (of_type t (a :: l)))
  = is_type t a + Z.of_nat (List.length (of_type t l)).
Proof.
  unfold of_type, is_type. cbn [List.filter].
  destruct (String.eqb (type a) t); cbn [List.length]; lia.
Qed.

Lemma count_activities_sums (acts : list Activity) (s st : Statistics) :
  count_activities s acts = Value st ->
  forms_filled_successfully st + forms_filled_failed st
  = forms_filled_successfully s + forms_filled_failed s
    + Z.of_nat (List.length (of_type "form_filling_result" acts))
  /\ submissions_successful st + submissions_failed st
     + Z.of_nat (List.length
                   (List.filter dry_run_pass (of_type "submission_result" acts)))
     = submissions_successful s + submissions_failed s
       + Z.of_nat (List.length (of_type "submission_result" acts))
  /\ errors_count st
     = errors_count s + Z.of_nat (List.length (of_type "error" acts)).
Proof.
  revert s. induction acts as [|a acts IH]; intros s; cbn [count_activities].
  - intros [= <-]. cbn. lia.
  - destruct (count_activity s a) as [s'|] eqn:E; [|discriminate].
    intros H. apply IH in H as [H1 [H2 H3]].
    apply count_activity_step in E as [E1 [E2 [E3 _]]].
    rewrite !of_type_length_cons.
    split; [lia|]. split; [|lia].
    unfold of_type in *. cbn [List.filter]. unfold is_type.
    destruct (String.eqb (type a) "submission_result"); cbn [andb] in E2.
    + cbn [List.filter]. destruct (dry_run_pass a); cbn [negb List.length] in *; lia.
    + lia.
Qed.

Lemma count_activities_other (acts : list Activity) (s : Statistics) :
  Forall (fun a => str_elem (type a)
                     ["opportunity_discovery"; "form_filling_result";
                      "submission_result"; "error"] = false) acts ->
  count_activities s acts = Value s.
Proof.
  induction 1 as [|a acts Ha _ IH]; [reflexivity|].
  cbn [count_activities]. unfold count_activity.
  unfold str_elem in Ha. cbn [existsb] in Ha.
  rewrite !orb_false_iff in Ha. destruct Ha as [H1 [H2 [H3 [H4 _]]]].
  rewrite H1, H2, H3, H4. exact IH.
Qed.

(** X23: when [get_statistics] returns, its counters add up as follows.
    Every [form_filling_result] is counted once, as filled or as failed;
    every [error] once; a [submission_result] is counted as successful or
    as failed unless it went through in a dry run (or carries no
    [dry_run] entry), in which case it is counted as neither. *)
Theorem statistics_add_up (activities : list Activity) (st : Statistics) :
  get_statistics (Some activities) = Value st ->
  forms_filled_successfully st + forms_filled_failed st
  = Z.of_nat (List.length (of_type "form_filling_result" activities))
  /\ submissions_successful st + submissions_failed st
     + Z.of_nat (List.length
                   (List.filter dry_run_pass
                      (of_type "submission_result" activities)))
     = Z.of_nat (List.length (of_type "submission_result" activities))
  /\ errors_count st = Z.of_nat (List.length (of_type "error" activities)).
Proof.
  intros H. apply count_activities_sums in H. cbn in H. lia.
Qed.

Lemma statistics_add_up_witness :
  submissions_successful no_statistics + submissions_failed no_statistics
  + Z.of_nat (List.length
                (List.filter dry_run_pass
                   (of_type "submission_result"
                      [ {| timestamp := ""; type := "submission_result";
                           data := [("submitted", JBool true)] |} ])))
  = 1.
Proof.
  exact (proj1 (proj2 (statistics_add_up
           [ {| timestamp := ""; type := "submission_result";
                data := [("submitted", JBool true)] |} ]
           no_statistics eq_refl))).
Defined.

(** X24: activities of any other type leave every counter alone, and the
    missing log gives the same zeros: a log that holds nothing but
    [application_start] and [application_complete] entries, the two types
    [main] writes, gives statistics that are all zero. *)
Theorem statistics_ignore_other_types (activities : list Activity) :
  (Forall (fun a => str_elem (type a)
                      ["opportunity_discovery"; "form_filling_result";
                       "submission_result"; "error"] = false) activities ->
   get_statistics (Some activities) = Value no_statistics)
  /\ (Forall (fun a => type a = "application_start"
                       \/ type a = "application_complete") activities ->
      get_statistics (Some activities) = get_statistics None).
Proof.
  split; intros H.
  - apply count_activities_other, H.
  - apply count_activities_other.
    eapply List.Forall_impl; [|exact H].
    intros a [-> | ->]; reflexivity.
Qed.

Lemma statistics_ignore_other_types_witness :
  get_statistics
    (Some [ {| timestamp := "t0"; type := "submission_attempt"; data := [] |} ])
  = Value no_statistics
  /\ get_statistics
       (Some [ {| timestamp := "t1"; type := "application_start";
                  data := [("dry_run", JBool true)] |};
               {| timestamp := "t2"; type := "application_complete";
                  data := [("forms_filled", JNum 3)] |} ])
     = get_statistics None.
Proof.
  split.
  - apply (proj1 (statistics_ignore_other_types _)).
    constructor; [reflexivity | constructor].
  - apply (proj2 (statistics_ignore_other_types _)).
    constructor; [left; reflexivity|].
    constructor; [right; reflexivity|]. constructor.
Defined.

End LogFacts.

(** * Submitting *)

Section SubmitFacts.
Import Py PyStr FormPage Submitter.

(** X25: a submission result says [submitted] exactly when it carries no
    error: every way out that does not submit records why.  It is
    submitted only if the form had been filled, the page opened, a submit
    button was found and validation found nothing; and the button is
    clicked at most once. *)
Theorem submitted_iff_no_errors (form_result : FillResult) (dry_run : bool)
    (now : string) (page : SubmitPage) :
  let out := submit_application form_result dry_run now page in
  (s_submitted (fst out) = true /\ s_errors (fst out) = []
   \/ s_submitted (fst out) = false /\ s_errors (fst out) <> [])
  /\ (s_submitted (fst out) = true ->
      r_success form_result = true /\ open_error page = None
      /\ buttons page <> 0 /\ validation_errors page = [])
  /\ snd out <= 1.
Proof.
  cbv zeta. unfold submit_application.
  destruct (r_success form_result); cbn [negb].
  2: { cbn. repeat split; try lia; try discriminate. right. split; congruence. }
  destruct (open_error page).
  { cbn. repeat split; try lia; try discriminate. right. split; congruence. }
  destruct (buttons page) as [|n]; cbn [Nat.eqb].
  { cbn. repeat split; try lia; try discriminate. right. split; congruence. }
  destruct (validation_errors page) as [|v vs].
  2: { cbn. repeat split; try lia; try discriminate. right. split; congruence. }
  destruct dry_run.
  { cbn. repeat split; try lia; auto. }
  destruct (click_error page).
  { cbn. repeat split; try lia; try discriminate. right. split; congruence. }
  destruct (confirmation page) as [[message id]|].
  - cbn. repeat split; try lia; auto.
  - cbn. repeat split; try lia; try discriminate. right. split; congruence.
Qed.

Lemma submitted_iff_no_errors_witness :
  r_success
    {| r_url := "u"; r_success := true; r_fields_filled := 1;
       r_total_fields := 1; r_errors := []; r_submitted := false;
       r_opportunity := None |} = true.
Proof.
  apply (proj1 (proj2 (submitted_iff_no_errors
           {| r_url := "u"; r_success := true; r_fields_filled := 1;
              r_total_fields := 1; r_errors := []; r_submitted := false;
              r_opportunity := None |}
           true "now"
           {| open_error := None; buttons := 1; validation_errors := [];
              click_error := None; confirmation := None |}))).
  reflexivity.
Defined.

(** X26: a dry run never clicks the submit button and never yields a
    submission id; when it says [submitted] the message is the fixed dry
    run text, whatever the page would have answered.  A form that was not
    filled is not even opened: the result is the same on every page. *)
Theorem dry_run_never_clicks (form_result : FillResult) (now : string)
    (page other : SubmitPage) :
  let out := submit_application form_result true now page in
  snd out = 0
  /\ s_submission_id (fst out) = None
  /\ (s_submitted (fst out) = true ->
      s_confirmation_message (fst out) = Some dry_run_message)
  /\ (r_success form_result = false ->
      forall dry_run,
        submit_application form_result dry_run now page
        = submit_application form_result dry_run now other).
Proof.
  cbv zeta. unfold submit_application.
  destruct (r_success form_result); cbn [negb].
  2: { cbn. repeat split; try discriminate. }
  destruct (open_error page); [cbn; repeat split; discriminate|].
  destruct (buttons page); cbn [Nat.eqb]; [cbn; repeat split; discriminate|].
  destruct (validation_errors page); cbn; repeat split; discriminate.
Qed.

Lemma dry_run_never_clicks_witness :
  s_confirmation_message
    (fst (submit_application
            {| r_url := "u"; r_success := true; r_fields_filled := 1;
               r_total_fields := 1; r_errors := []; r_submitted := false;
               r_opportunity := None |}
            true "now"
            {| open_error := None; buttons := 2; validation_errors := [];
               click_error := None;
               confirmation := Some ("Thank you", Some "A-1") |}))
  = Some dry_run_message
  /\ submit_application
       {| r_url := "u"; r_success := false; r_fields_filled := 0;
          r_total_fields := 3; r_errors := []; r_submitted := false;
          r_opportunity := None |}
       false "now"
       {| open_error := None; buttons := 2; validation_errors := [];
          click_error := None; confirmation := Some ("Thank you", Some "A-1") |}
     = submit_application
         {| r_url := "u"; r_success := false; r_fields_filled := 0;
            r_total_fields := 3; r_errors := []; r_submitted := false;
            r_opportunity := None |}
         false "now"
         {| open_error := Some "unreachable"; buttons := 0;
            validation_errors := []; click_error := None;
            confirmation := None |}.
Proof.
  split.
  - apply (proj1 (proj2 (proj2 (dry_run_never_clicks _ "now" _
             {| open_error := None; buttons := 0; validation_errors := [];
                click_error := None; confirmation := None |})))).
    reflexivity.
  - apply (proj2 (proj2 (proj2 (dry_run_never_clicks
             {| r_url := "u"; r_success := false; r_fields_filled := 0;
                r_total_fields := 3; r_errors := []; r_submitted := false;
                r_opportunity := None |} "now" _ _)))).
    reflexivity.
Defined.

(** ** The submission id *)

Lemma string_app_cons (c : ascii) (a b : string) :
  (String c a ++ b = String c (a ++ b))%string.
Proof. reflexivity. Qed.

Lemma run_all_chars (p : ascii -> bool) (s : string) :
  all_chars p (run p s) = true.
Proof.
  induction s as [|c s IH]; [reflexivity|]. cbn [run].
  destruct (p c) eqn:E; [|reflexivity]. cbn [all_chars]. now rewrite E, IH.
Qed.

Lemma run_after_run (p : ascii -> bool) (s : string) :
  s = (run p s ++ after_run p s)%string.
Proof.
  induction s as [|c s IH]; [reflexivity|]. cbn [run after_run].
  destruct (p c); [|reflexivity].
  rewrite string_app_cons. now f_equal.
Qed.

Lemma after_word_suffix (word s rest : string) :
  after_word word s = Some rest -> exists pre, s = (pre ++ rest)%string.
Proof.
  revert s. induction word as [|a word IH]; intros s; cbn [after_word].
  - intros [= ->]. now exists "".
  - destruct s as [|b s]; [discriminate|].
    destruct (Ascii.eqb (lower_ascii a) (lower_ascii b)); [|discriminate].
    intros H. apply IH in H as [pre ->]. now exists (String b pre).
Qed.

Lemma match_here_sub (word : string) (separated : bool) (s group : string) :
  match_here word separated s = Some group ->
  group <> "" /\ all_chars id_char group = true
  /\ exists pre post, s = (pre ++ group ++ post)%string.
Proof.
  unfold match_here.
  destruct (after_word word s) as [rest|] eqn:E; [|discriminate].
  apply after_word_suffix in E as [pre ->].
  set (rest' := if separated then after_run sep_char rest else rest).
  assert (Hr : exists mid, rest = (mid ++ rest')%string).
  { unfold rest'. destruct separated.
    - exists (run sep_char rest). apply run_after_run.
    - now exists "". }
  destruct (separated && String.eqb (run sep_char rest) ""); [discriminate|].
  destruct (run id_char rest') as [|c g] eqn:Eg; [discriminate|].
  intros [= <-]. split; [discriminate|]. split.
  - rewrite <- Eg. apply run_all_chars.
  - destruct Hr as [mid Hr].
    exists (pre ++ mid)%string, (after_run id_char rest').
    rewrite <- Eg, <- run_after_run, string_app_assoc.
    f_equal. exact Hr.
Qed.

Lemma search_sub (word : string) (separated : bool) (s group : string) :
  search word separated s = Some group ->
  group <> "" /\ all_chars id_char group = true
  /\ exists pre post, s = (pre ++ group ++ post)%string.
Proof.
  induction s as [|c s IH]; cbn [search].
  - destruct (match_here word separated "") eqn:E; [|discriminate].
    intros [= <-]. eapply match_here_sub, E.
  - destruct (match_here word separated (String c s)) eqn:E.
    + intros [= <-]. eapply match_here_sub, E.
    + intros H. apply IH in H as [H1 [H2 [pre [post ->]]]].
      split; [exact H1|]. split; [exact H2|].
      now exists (String c pre), post.
Qed.

(** X27: a submission id that [_extract_submission_id] returns is never
    empty, is made of letters, digits and "-" only, and stands in the
    text.  The word in front of it need not stand alone: the "id" at the
    end of "valid" is enough. *)
Theorem extracted_id_shape (text id : string) :
  _extract_submission_id text = Some id ->
  id <> "" /\ all_chars id_char id = true /\ str_in id text = true.
Proof.
  unfold _extract_submission_id, id_patterns. cbn [first_match].
  intros H.
  assert (Hs : exists word separated, search word separated text = Some id).
  { repeat match type of H with
           | match search ?w ?b text with _ => _ end = _ =>
               destruct (search w b text) eqn:?;
               [injection H as ->; eauto |]
           end.
    discriminate. }
  destruct Hs as [word [separated Hs]].
  apply search_sub in Hs as [H1 [H2 H3]].
  split; [exact H1|]. split; [exact H2|]. now apply str_in_spec.
Qed.

Lemma extracted_id_shape_witness :
  _extract_submission_id "Submission is valid: yes" = Some "yes"
  /\ str_in "yes" "Submission is valid: yes" = true.
Proof.
  assert (H : _extract_submission_id "Submission is valid: yes" = Some "yes")
    by reflexivity.
  split; [exact H|].
  exact (proj2 (proj2 (extracted_id_shape _ _ H))).
Defined.

End SubmitFacts.
